(** * query_orders: the day-range calculator and the order query/formatter

    A shallow embedding of [tools/log_reconcile/query_orders.py].  Python
    integers are [Z], Python floats are the binary64 numbers seen as exact
    rationals in [Q] with every operation rounded to nearest-even, strings
    are [string] (characters are the code points below 256), exceptions are
    the [Raise] branch of a result type, and the effects of [main] (printing,
    opening and querying the order store) are recorded as a trace. *)

From Stdlib Require Import ZArith QArith Qpower Qround Qabs Lia Lqa Bool List.
From Stdlib Require Import Ascii String DecimalString Sorted Permutation.
From Stdlib Require Import SpecFloat.
Import ListNotations.

Open Scope string_scope.
Open Scope Z_scope.

(** ** Exceptions and results *)

Inductive exn : Type :=
| ValueError
| OverflowError
| OSError
| OperationalError
| SystemExit (code : Z).

Inductive result (A : Type) : Type :=
| Ok (a : A)
| Raise (e : exn).

Arguments Ok {A} a.
Arguments Raise {A} e.

Definition bind {A B : Type} (r : result A) (k : A -> result B) : result B :=
  match r with
  | Ok a => k a
  | Raise e => Raise e
  end.

Notation "x <- r ;; k" := (bind r (fun x => k))
  (at level 61, r at next level, right associativity).
Notation "' pat <- r ;; k" := (bind r (fun x => match x with pat => k end))
  (at level 61, pat pattern, r at next level, right associativity).

(** ** Strings: [str.split], [str.strip], [int(str)], [str(int)] *)

Definition code (c : ascii) : Z := Z.of_N (N_of_ascii c).

Definition dash : ascii := "-"%char.
Definition newline : ascii := ascii_of_nat 10.

(** [s.split(sep)] for a separator of one character: never empty. *)
Fixpoint split (sep : ascii) (s : string) : list string :=
  match s with
  | EmptyString => [EmptyString]
  | String c rest =>
      if Ascii.eqb c sep then EmptyString :: split sep rest
      else match split sep rest with
           | [] => [String c EmptyString]
           | p :: ps => String c p :: ps
           end
  end.

(** White space as [int()] sees it: the ASCII controls 9..13, the space, and
    the two Latin-1 spaces that the conversion to ASCII turns into a space. *)
Definition is_int_space (c : ascii) : bool :=
  let n := code c in
  ((9 <=? n) && (n <=? 13)) || (n =? 32) || (n =? 133) || (n =? 160).

(** White space as [str.strip()] sees it (the Unicode property). *)
Definition is_space (c : ascii) : bool :=
  let n := code c in
  ((9 <=? n) && (n <=? 13)) || ((28 <=? n) && (n <=? 32))
  || (n =? 133) || (n =? 160).

Fixpoint lstrip (f : ascii -> bool) (s : string) : string :=
  match s with
  | EmptyString => EmptyString
  | String c rest => if f c then lstrip f rest else s
  end.

Fixpoint rstrip (f : ascii -> bool) (s : string) : string :=
  match s with
  | EmptyString => EmptyString
  | String c rest =>
      match rstrip f rest with
      | EmptyString => if f c then EmptyString else String c EmptyString
      | r => String c r
      end
  end.

Definition strip (s : string) : string := rstrip is_space (lstrip is_space s).

Definition digit_value (c : ascii) : option Z :=
  let n := code c in
  if (48 <=? n) && (n <=? 57) then Some (n - 48) else None.

(** The digits of a decimal literal after its first digit: single
    underscores are allowed between digits.  Returns the value and the number
    of digits read. *)
Fixpoint int_digits (s : string) (after_underscore : bool) (acc n : Z)
  : option (Z * Z) :=
  match s with
  | EmptyString => if after_underscore then None else Some (acc, n)
  | String c rest =>
      match digit_value c with
      | Some d => int_digits rest false (acc * 10 + d) (n + 1)
      | None =>
          if Ascii.eqb c "_"%char
          then if after_underscore then None else int_digits rest true acc n
          else None
      end
  end.

Definition int_body (s : string) : option (Z * Z) :=
  match s with
  | EmptyString => None
  | String c rest =>
      match digit_value c with
      | Some d => int_digits rest false d 1
      | None => None
      end
  end.

(** [sys.int_info.default_max_str_digits] *)
Definition int_max_str_digits : Z := 4300.

(** [int(s)] in base 10: [None] is the [ValueError] "invalid literal". *)
Definition parse_int (s : string) : option Z :=
  let t := rstrip is_int_space (lstrip is_int_space s) in
  let '(neg, body) :=
    match t with
    | String "+"%char r => (false, r)
    | String "-"%char r => (true, r)
    | _ => (false, t)
    end in
  match int_body body with
  | Some (v, n) =>
      if n <=? int_max_str_digits then Some (if neg then - v else v) else None
  | None => None
  end.

Definition py_int (s : string) : result Z :=
  match parse_int s with
  | Some z => Ok z
  | None => Raise ValueError
  end.

(** [str(n)] and the format specification [+d]. *)
Definition str_of_int (z : Z) : string := NilZero.string_of_int (Z.to_int z).

Definition fmt_plus_d (z : Z) : string :=
  if 0 <=? z then ("+" ++ str_of_int z)%string else str_of_int z.

(** The format specification [<w] on a string: left-aligned, filled with
    spaces on the right up to [w] characters, never cut. *)
Fixpoint spaces (n : nat) : string :=
  match n with
  | O => EmptyString
  | S k => String " "%char (spaces k)
  end.

Definition fmt_ljust (w : nat) (s : string) : string :=
  (s ++ spaces (w - String.length s))%string.

(** ** Floats: binary64 as rationals, round to nearest, ties to even *)

Module Float64.

Definition mant_bits : Z := 53.
Definition emin : Z := -1074.

Definition pow2 (k : Z) : Q := Qpower 2 k.

(** [floor (log2 x)] for a positive rational [x]. *)
Definition ilog2 (x : Q) : Z :=
  let k := Z.log2 (Qnum x) - Z.log2 (Zpos (Qden x)) in
  if Qle_bool (pow2 k) x then k else k - 1.

(** Nearest integer, ties to the even one. *)
Definition rne (q : Q) : Z :=
  let f := Qfloor q in
  match Qcompare (q - inject_Z f) (1 # 2) with
  | Lt => f
  | Gt => f + 1
  | Eq => if Z.even f then f else f + 1
  end.

(** The exponent of the unit in the last place of the format at [x]. *)
Definition ulp_exp (x : Q) : Z :=
  Z.max (ilog2 (Qabs x) - (mant_bits - 1)) emin.

(** The binary64 number nearest to [x].  The format's largest exponent is
    left out: every magnitude [day_range_ms] reaches is below 2^53. *)
Definition round (x : Q) : Q :=
  match Qcompare x 0 with
  | Eq => 0
  | _ => let e := ulp_exp x in inject_Z (rne (x / pow2 e)) * pow2 e
  end.

(** [a / b] on two Python integers: the correctly rounded quotient. *)
Definition true_div (a b : Z) : Q := round (inject_Z a / inject_Z b).

(** [x * n] for a float [x] and an integer [n] that converts exactly. *)
Definition mul_int (x : Q) (n : Z) : Q := round (x * inject_Z n).

(** [int(x)]: truncation toward zero. *)
Definition to_int (x : Q) : Z := Z.quot (Qnum x) (Zpos (Qden x)).

End Float64.

(** ** The calendar of [datetime] *)

Definition MINYEAR : Z := 1.
Definition MAXYEAR : Z := 9999.

Definition is_leap (year : Z) : bool :=
  (year mod 4 =? 0) && (negb (year mod 100 =? 0) || (year mod 400 =? 0)).

Definition days_before_year (year : Z) : Z :=
  let y := year - 1 in y * 365 + y / 4 - y / 100 + y / 400.

Definition DAYS_IN_MONTH (month : Z) : Z :=
  match month with
  | 1 => 31 | 2 => 28 | 3 => 31 | 4 => 30 | 5 => 31 | 6 => 30
  | 7 => 31 | 8 => 31 | 9 => 30 | 10 => 31 | 11 => 30 | 12 => 31
  | _ => -1
  end.

Definition DAYS_BEFORE_MONTH (month : Z) : Z :=
  match month with
  | 1 => 0 | 2 => 31 | 3 => 59 | 4 => 90 | 5 => 120 | 6 => 151
  | 7 => 181 | 8 => 212 | 9 => 243 | 10 => 273 | 11 => 304 | 12 => 334
  | _ => -1
  end.

Definition days_in_month (year month : Z) : Z :=
  if (month =? 2) && is_leap year then 29 else DAYS_IN_MONTH month.

Definition days_before_month (year month : Z) : Z :=
  DAYS_BEFORE_MONTH month + (if (2 <? month) && is_leap year then 1 else 0).

Definition ymd2ord (year month day : Z) : Z :=
  days_before_year year + days_before_month year month + day.

(** ** [timedelta], [timezone], [datetime] *)

(** A [timedelta] is determined by its number of microseconds; [days] is the
    floor quotient of that number by a day's microseconds. *)
Record timedelta : Type := { td_us : Z }.

Definition US_PER_SECOND : Z := 1000000.
Definition US_PER_HOUR : Z := 3600 * US_PER_SECOND.
Definition US_PER_DAY : Z := 24 * US_PER_HOUR.
Definition MAX_DELTA_DAYS : Z := 999999999.

Definition td_days (t : timedelta) : Z := td_us t / US_PER_DAY.

Definition new_delta (us : Z) : result timedelta :=
  if Z.abs (us / US_PER_DAY) <=? MAX_DELTA_DAYS
  then Ok {| td_us := us |}
  else Raise OverflowError.

(** [timedelta(hours=h)] *)
Definition timedelta_hours (h : Z) : result timedelta :=
  new_delta (h * US_PER_HOUR).

(** [td.total_seconds()] *)
Definition total_seconds (t : timedelta) : Q :=
  Float64.true_div (td_us t) US_PER_SECOND.

Record timezone : Type := { utcoffset : timedelta }.

(** [timezone(offset)]: the offset is strictly between -24h and 24h. *)
Definition new_timezone (offset : timedelta) : result timezone :=
  if (- US_PER_DAY <? td_us offset) && (td_us offset <? US_PER_DAY)
  then Ok {| utcoffset := offset |}
  else Raise ValueError.

Record datetime : Type := {
  year : Z; month : Z; day : Z;
  hour : Z; minute : Z; second : Z; microsecond : Z;
  tzinfo : timezone
}.

(** The constructor's arguments are C [int]s. *)
Definition INT_MIN : Z := - 2 ^ 31.
Definition INT_MAX : Z := 2 ^ 31 - 1.

Definition fits_int (z : Z) : bool := (INT_MIN <=? z) && (z <=? INT_MAX).

Definition check_date_fields (y m d : Z) : result unit :=
  if negb ((MINYEAR <=? y) && (y <=? MAXYEAR)) then Raise ValueError
  else if negb ((1 <=? m) && (m <=? 12)) then Raise ValueError
  else if negb ((1 <=? d) && (d <=? days_in_month y m)) then Raise ValueError
  else Ok tt.

Definition check_time_fields (hh mm ss us : Z) : result unit :=
  if negb ((0 <=? hh) && (hh <=? 23)) then Raise ValueError
  else if negb ((0 <=? mm) && (mm <=? 59)) then Raise ValueError
  else if negb ((0 <=? ss) && (ss <=? 59)) then Raise ValueError
  else if negb ((0 <=? us) && (us <=? 999999)) then Raise ValueError
  else Ok tt.

(** [datetime(y, m, d, hh, mm, ss, us, tzinfo=tz)]: the seven numbers are
    read as C [int]s first, then the date and the time are range-checked. *)
Definition new_datetime (y m d hh mm ss us : Z) (tz : timezone)
  : result datetime :=
  if negb (fits_int y && fits_int m && fits_int d
           && fits_int hh && fits_int mm && fits_int ss && fits_int us)
  then Raise OverflowError
  else
    _ <- check_date_fields y m d ;;
    _ <- check_time_fields hh mm ss us ;;
    Ok {| year := y; month := m; day := d;
          hour := hh; minute := mm; second := ss; microsecond := us;
          tzinfo := tz |}.

Definition EPOCH_ORDINAL : Z := ymd2ord 1970 1 1.

(** [self - EPOCH] for an aware [self]: both sides are taken to UTC. *)
Definition since_epoch (t : datetime) : timedelta :=
  let days := ymd2ord (year t) (month t) (day t) - EPOCH_ORDINAL in
  let secs := hour t * 3600 + minute t * 60 + second t in
  {| td_us := (days * 86400 + secs) * US_PER_SECOND + microsecond t
              - td_us (utcoffset (tzinfo t)) |}.

(** [t.timestamp()] of an aware datetime. *)
Definition timestamp (t : datetime) : Q := total_seconds (since_epoch t).

(** ** The range calculator *)

(** [y, m, d = map(int, parts)]: the items are converted one after the other
    as the unpacking asks for them, a fourth one included when there is one;
    a wrong number of items is a [ValueError] as well. *)
Definition unpack3 (parts : list string) : result (Z * Z * Z) :=
  match parts with
  | [] => Raise ValueError
  | [a] => _ <- py_int a ;; Raise ValueError
  | [a; b] => _ <- py_int a ;; _ <- py_int b ;; Raise ValueError
  | [a; b; c] => y <- py_int a ;; m <- py_int b ;; d <- py_int c ;; Ok (y, m, d)
  | a :: b :: c :: extra :: _ =>
      _ <- py_int a ;; _ <- py_int b ;; _ <- py_int c ;; _ <- py_int extra ;;
      Raise ValueError
  end.

Definition ms_of (t : datetime) : Z :=
  Float64.to_int (Float64.mul_int (timestamp t) 1000).

Definition day_range_ms (date_str : string) (tz_hours : Z) : result (Z * Z) :=
  '(y, m, d) <- unpack3 (split dash date_str) ;;
  td <- timedelta_hours tz_hours ;;
  tz <- new_timezone td ;;
  s <- new_datetime y m d 0 0 0 0 tz ;;
  let start := ms_of s in
  e <- new_datetime y m d 23 59 59 999000 tz ;;
  let end_ := ms_of e in
  Ok (start, end_).

(** ** The effects of [main]: a trace of what it prints and does to the store *)

Inductive event : Type :=
| Stdout (text : string)
| Connect
| Execute (trader_id symbol : string) (lo hi : Z)
| Close.

Definition io (A : Type) : Type := (list event * result A)%type.

Definition ret {A : Type} (a : A) : io A := ([], Ok a).
Definition raise {A : Type} (e : exn) : io A := ([], Raise e).
Definition emit (ev : event) : io unit := ([ev], Ok tt).
Definition lift {A : Type} (r : result A) : io A := ([], r).

Definition io_bind {A B : Type} (m : io A) (k : A -> io B) : io B :=
  match m with
  | (t, Ok a) => let '(t', r) := k a in ((t ++ t')%list, r)
  | (t, Raise e) => (t, Raise e)
  end.

Notation "x <~ m ;; k" := (io_bind m (fun x => k))
  (at level 61, m at next level, right associativity).
Notation "' pat <~ m ;; k" := (io_bind m (fun x => match x with pat => k end))
  (at level 61, pat pattern, m at next level, right associativity).

(** The status the interpreter exits with: 0 after a normal return, the code
    of [sys.exit], 1 after any other exception that nobody caught. *)
Definition exit_status (r : result unit) : Z :=
  match r with
  | Ok _ => 0
  | Raise (SystemExit c) => c
  | Raise _ => 1
  end.

Definition printed (t : list event) : list string :=
  flat_map (fun ev => match ev with Stdout s => [s] | _ => [] end) t.

Definition store_events (t : list event) : list event :=
  filter (fun ev => match ev with Stdout _ => false | _ => true end) t.

Definition nl : string := String newline EmptyString.

Definition USAGE : string :=
  nl ++ "Usage:" ++ nl
  ++ "  python query_orders.py <trader_id> <symbol> <date: YYYY-MM-DD> [tz_offset_hours]"
  ++ nl ++ nl ++ "Examples:" ++ nl
  ++ "  python query_orders.py binance_xxx_deepseek_xxx 0GUSDT 2025-11-09" ++ nl
  ++ "  python query_orders.py binance_xxx_deepseek_xxx BTCUSDT 2025-11-09 8" ++ nl.

(** ** The query and the formatter *)

Section Tool.

(** Column values whose storage class the tool does not look at, with the
    two ways it prints them: [f"{v}"] and [f"{v:.6g}"]. *)
Variable value : Type.
Variable py_str : value -> string.
Variable fmt_g6 : value -> string.

(** [time.strftime("%Y-%m-%d %H:%M:%S", time.localtime(ts / 1000))]: the
    machine's own time zone decides the text, and the platform may refuse
    a time stamp. *)
Variable local_time_str : Z -> result string.

(** A record of the table [orders], with the column types of the data
    model: the text columns hold text and the other columns hold values that
    both formats print, so that in the row loop below only the local time
    can fail. *)
Record order : Type := {
  order_id : value;
  trader_id : string;
  symbol : string;
  side : string;
  position_side : string;
  status : string;
  avg_price : value;
  executed_qty : value;
  reduce_only : value;
  close_position : value;
  type : string;
  time : Z
}.

(** The ten columns of the SELECT, in its order. *)
Definition row : Type :=
  (value * string * string * string * value * value * value * value
   * string * Z)%type.

Definition select (o : order) : row :=
  (order_id o, side o, position_side o, status o, avg_price o,
   executed_qty o, reduce_only o, close_position o, type o, time o).

Definition row_time (r : row) : Z := snd r.

(** WHERE trader_id=? AND symbol=? AND time BETWEEN ? AND ? *)
Definition where_ (tid sym : string) (lo hi : Z) (o : order) : bool :=
  String.eqb (trader_id o) tid && String.eqb (symbol o) sym
  && ((lo <=? time o) && (time o <=? hi)).

(** ORDER BY time *)
Fixpoint insert_by_time (r : row) (l : list row) : list row :=
  match l with
  | [] => [r]
  | x :: xs =>
      if row_time r <=? row_time x then r :: l
      else x :: insert_by_time r xs
  end.

Fixpoint order_by_time (l : list row) : list row :=
  match l with
  | [] => []
  | r :: rs => insert_by_time r (order_by_time rs)
  end.

Definition run_query (table : list order) (tid sym : string) (lo hi : Z)
  : list row :=
  order_by_time (map select (filter (where_ tid sym lo hi) table)).

(** The store: [None] when the database cannot be opened.  A store that
    opens answers the query: a query that fails after the connection was
    made is outside this model. *)
Definition store : Type := option (list order).

Definition connect (db : store) : io (list order) :=
  _ <~ emit Connect ;;
  match db with
  | Some table => ret table
  | None => raise OperationalError
  end.

Definition execute_fetchall (table : list order) (tid sym : string)
  (lo hi : Z) : io (list row) :=
  _ <~ emit (Execute tid sym lo hi) ;;
  ret (run_query table tid sym lo hi).

Definition summary_line (n : nat) (sym date_str : string) (tz_hours : Z)
  : string :=
  "found " ++ str_of_int (Z.of_nat n) ++ " orders for " ++ sym ++ " on "
  ++ date_str ++ " (tz=UTC" ++ fmt_plus_d tz_hours ++ ")".

Definition row_line (ts_str : string) (r : row) : string :=
  let '(oid, sd, pos_side, st, px, qty, ro, cp, otype, _) := r in
  ts_str ++ " | id=" ++ py_str oid ++ " | "
  ++ fmt_ljust 4 sd ++ " " ++ fmt_ljust 5 pos_side ++ " " ++ fmt_ljust 7 st
  ++ " | px=" ++ fmt_g6 px ++ " qty=" ++ fmt_g6 qty
  ++ " | RO=" ++ py_str ro ++ " CP=" ++ py_str cp ++ " | " ++ otype.

Fixpoint print_rows (rows : list row) : io unit :=
  match rows with
  | [] => ret tt
  | r :: rest =>
      ts_str <~ lift (local_time_str (row_time r)) ;;
      _ <~ emit (Stdout (row_line ts_str r)) ;;
      print_rows rest
  end.

(** [int(sys.argv[4]) if len(sys.argv) > 4 else 8] *)
Definition tz_arg (argv : list string) : result Z :=
  if (4 <? List.length argv)%nat then py_int (nth 4 argv "") else Ok 8.

Definition main (argv : list string) (db : store) : io unit :=
  if (List.length argv <? 4)%nat then
    _ <~ emit (Stdout (strip USAGE)) ;;
    raise (SystemExit 1)
  else
    let trader := nth 1 argv "" in
    let sym := nth 2 argv "" in
    let date_str := nth 3 argv "" in
    tz_hours <~ lift (tz_arg argv) ;;
    '(start, end_) <~ lift (day_range_ms date_str tz_hours) ;;
    table <~ connect db ;;
    rows <~ execute_fetchall table trader sym start end_ ;;
    _ <~ emit (Stdout (summary_line (List.length rows) sym date_str tz_hours)) ;;
    _ <~ print_rows rows ;;
    emit Close.

End Tool.

Arguments order_id {value} o.
Arguments trader_id {value} o.
Arguments symbol {value} o.
Arguments side {value} o.
Arguments position_side {value} o.
Arguments status {value} o.
Arguments avg_price {value} o.
Arguments executed_qty {value} o.
Arguments reduce_only {value} o.
Arguments close_position {value} o.
Arguments type {value} o.
Arguments time {value} o.
Arguments select {value} o.
Arguments row_time {value} r.
Arguments where_ {value} tid sym lo hi o.
Arguments insert_by_time {value} r l.
Arguments order_by_time {value} l.
Arguments run_query {value} table tid sym lo hi.
Arguments connect {value} db.
Arguments execute_fetchall {value} table tid sym lo hi.
Arguments row_line {value} py_str fmt_g6 ts_str r.
Arguments print_rows {value} py_str fmt_g6 local_time_str rows.
Arguments main {value} py_str fmt_g6 local_time_str argv db.

(** ** Vocabulary of the statements *)

(** The checks of [day_range_ms], one by one. *)
Definition valid_date (y m d : Z) : bool :=
  (MINYEAR <=? y) && (y <=? MAXYEAR) && ((1 <=? m) && (m <=? 12))
  && ((1 <=? d) && (d <=? days_in_month y m)).

Definition fits_date (y m d : Z) : bool :=
  fits_int y && fits_int m && fits_int d.

Definition offset_in_delta_range (tz_hours : Z) : bool :=
  Z.abs (tz_hours / 24) <=? MAX_DELTA_DAYS.

Definition offset_ok (tz_hours : Z) : bool :=
  (-24 <? tz_hours) && (tz_hours <? 24).

(** The values it builds when every check passes. *)
Definition mk_tz (tz_hours : Z) : timezone :=
  {| utcoffset := {| td_us := tz_hours * US_PER_HOUR |} |}.

Definition day_start (y m d tz_hours : Z) : datetime :=
  {| year := y; month := m; day := d;
     hour := 0; minute := 0; second := 0; microsecond := 0;
     tzinfo := mk_tz tz_hours |}.

Definition day_end (y m d tz_hours : Z) : datetime :=
  {| year := y; month := m; day := d;
     hour := 23; minute := 59; second := 59; microsecond := 999000;
     tzinfo := mk_tz tz_hours |}.

(** Seconds from the epoch to local midnight of a date at an offset. *)
Definition epoch_seconds (y m d tz_hours : Z) : Z :=
  (ymd2ord y m d - EPOCH_ORDINAL) * 86400 - tz_hours * 3600.

(** A date string is well formed when it splits into three integer literals
    that name a day of the calendar; [date_fits] says that the three
    integers, when there are three, are C [int]s. *)
Definition date_ok (date_str : string) : bool :=
  match unpack3 (split dash date_str) with
  | Ok (y, m, d) => valid_date y m d
  | Raise _ => false
  end.

Definition date_fits (date_str : string) : bool :=
  match unpack3 (split dash date_str) with
  | Ok (y, m, d) => fits_date y m d
  | Raise _ => true
  end.

Definition time_le {value : Type} (a b : row value) : Prop :=
  row_time a <= row_time b.

(** The line of a row, when the platform formats its time stamp. *)
Definition render {value : Type} (py_str fmt_g6 : value -> string)
  (local_time_str : Z -> result string) (r : row value) : option string :=
  match local_time_str (row_time r) with
  | Ok ts_str => Some (row_line py_str fmt_g6 ts_str r)
  | Raise _ => None
  end.

(** Following the spec's words: a field padded on its left, and the row line
    with its three padded fields written that way. *)
Definition left_pad (w : nat) (s : string) : string :=
  spaces (w - String.length s) ++ s.

Definition claimed_row_line {value : Type} (py_str fmt_g6 : value -> string)
  (ts_str : string) (r : row value) : string :=
  let '(oid, sd, pos_side, st, px, qty, ro, cp, otype, _) := r in
  ts_str ++ " | id=" ++ py_str oid ++ " | "
  ++ left_pad 4 sd ++ " " ++ left_pad 5 pos_side ++ " " ++ left_pad 7 st
  ++ " | px=" ++ fmt_g6 px ++ " qty=" ++ fmt_g6 qty
  ++ " | RO=" ++ py_str ro ++ " CP=" ++ py_str cp ++ " | " ++ otype.

(** A store with text in every column, and a clock that prints the number. *)
Definition sample_order (tm : Z) : order string :=
  {| order_id := "7"; trader_id := "trader1"; symbol := "BTCUSDT";
     side := "BUY"; position_side := "LONG"; status := "FILLED";
     avg_price := "101234"; executed_qty := "0.5"; reduce_only := "0";
     close_position := "0"; type := "LIMIT"; time := tm |}.

Definition sample_clock (ts : Z) : result string := Ok (str_of_int ts).

Definition id_str (s : string) : string := s.

Definition sample_argv : list string :=
  ["query_orders.py"; "trader1"; "BTCUSDT"; "2025-11-09"; "0"].

(** The same two float operations on the standard library's executable
    IEEE 754 specification, to compare the rational model with. *)
Definition Q_of_spec_float (f : spec_float) : option Q :=
  match f with
  | S754_zero _ => Some 0%Q
  | S754_finite s m e =>
      Some (inject_Z (if s then Z.neg m else Z.pos m) * Float64.pow2 e)%Q
  | _ => None
  end.

Definition spec_float_of_Z (z : Z) : spec_float :=
  match z with
  | Z0 => S754_zero false
  | Zpos p => S754_finite false p 0
  | Zneg p => S754_finite true p 0
  end.

Definition spec_float_ms (us : Z) : spec_float :=
  SFmul 53 1024
    (SFdiv 53 1024 (spec_float_of_Z us) (spec_float_of_Z US_PER_SECOND))
    (spec_float_of_Z 1000).

Definition agrees_with_spec_float (us : Z) : bool :=
  match Q_of_spec_float (spec_float_ms us) with
  | Some q =>
      Qeq_bool q (Float64.mul_int (Float64.true_div us US_PER_SECOND) 1000)
  | None => false
  end.

(** * Facts *)

(** ** Rounding keeps a value between the integers around it *)

Module Float64Facts.

Import Float64.
Local Open Scope Q_scope.

Lemma pow2_pos k : 0 < pow2 k.
Proof. unfold pow2. apply Qpower_0_lt. reflexivity. Qed.

Lemma pow2_neg_int (e : Z) : (e <= 0)%Z -> pow2 e * inject_Z (2 ^ (- e)) == 1.
Proof.
  intros He. unfold pow2.
  rewrite Zpower_Qpower by lia.
  change (inject_Z 2) with 2.
  rewrite <- Qpower_plus by discriminate.
  replace (e + - e)%Z with 0%Z by lia. reflexivity.
Qed.

Lemma rne_floor q : (Qfloor q <= rne q)%Z.
Proof.
  unfold rne. destruct (Qcompare _ _); try destruct (Z.even _); lia.
Qed.

Lemma rne_ge_int (q : Q) (n : Z) : inject_Z n <= q -> (n <= rne q)%Z.
Proof.
  intros H. apply Qfloor_resp_le in H. rewrite Qfloor_Z in H.
  pose proof (rne_floor q). lia.
Qed.

Lemma rne_le_int (q : Q) (n : Z) : q <= inject_Z n -> (rne q <= n)%Z.
Proof.
  intros H. pose proof (Qfloor_le q) as Hf.
  assert (Hfn : (Qfloor q <= n)%Z).
  { rewrite Zle_Qle. lra. }
  unfold rne. destruct (Qcompare _ _) eqn:Hc.
  - apply Qeq_alt in Hc. destruct (Z.even _); [lia|].
    assert (inject_Z (Qfloor q) < inject_Z n) by lra.
    rewrite <- Zlt_Qlt in H0. lia.
  - lia.
  - apply Qgt_alt in Hc.
    assert (inject_Z (Qfloor q) < inject_Z n) by lra.
    rewrite <- Zlt_Qlt in H0. lia.
Qed.

Lemma ilog2_below (x : Q) (k : Z) :
  (0 <= k)%Z -> 0 < x -> x < inject_Z (2 ^ k) -> (ilog2 x <= k - 1)%Z.
Proof.
  intros Hk Hpos Hlt. unfold ilog2.
  destruct x as [n d]. simpl Qnum; simpl Qden.
  unfold Qlt in Hpos, Hlt. simpl in Hpos, Hlt.
  assert (Hn : (0 < n)%Z) by lia.
  assert (Hlog : (Z.log2 n <= Z.log2 (Z.pos d) + k)%Z).
  { replace (Z.log2 (Z.pos d) + k)%Z with (k + Z.log2 (Z.pos d))%Z by lia.
    rewrite <- (Z.log2_mul_pow2 (Z.pos d) k) by lia.
    apply Z.log2_le_mono. lia. }
  destruct (Qle_bool _ _) eqn:Hb; [|lia].
  apply Qle_bool_iff in Hb.
  destruct (Z.eq_dec (Z.log2 n - Z.log2 (Z.pos d)) k) as [E|E]; [|lia].
  rewrite E in Hb. exfalso.
  unfold pow2 in Hb. change 2 with (inject_Z 2) in Hb.
  rewrite <- Zpower_Qpower in Hb by lia.
  unfold Qle in Hb. simpl in Hb. lia.
Qed.

Lemma ulp_exp_small (x : Q) :
  ~ x == 0 -> Qabs x < inject_Z (2 ^ 53) -> (ulp_exp x <= 0)%Z.
Proof.
  intros Hx Hlt. unfold ulp_exp, mant_bits, emin.
  assert (Hpos : 0 < Qabs x).
  { apply Qabs_case; intros; lra. }
  pose proof (ilog2_below _ 53 ltac:(lia) Hpos Hlt). lia.
Qed.

Lemma scaled_between (x : Q) (e a b : Z) :
  (e <= 0)%Z -> inject_Z a <= x -> x <= inject_Z b ->
  inject_Z a <= inject_Z (rne (x / pow2 e)) * pow2 e
  /\ inject_Z (rne (x / pow2 e)) * pow2 e <= inject_Z b.
Proof.
  intros He Ha Hb.
  pose proof (pow2_neg_int e He) as HK.
  pose proof (pow2_pos e) as HP.
  set (K := (2 ^ (- e))%Z) in *.
  assert (HKpos : 0 < inject_Z K).
  { change 0 with (inject_Z 0). rewrite <- Zlt_Qlt. subst K.
    apply Z.pow_pos_nonneg; lia. }
  assert (Hq : x / pow2 e == x * inject_Z K).
  { assert (Hinv : / pow2 e == inject_Z K).
    { apply (Qmult_inj_l _ _ (pow2 e)); [lra|].
      rewrite Qmult_inv_r by lra. rewrite HK. reflexivity. }
    unfold Qdiv. rewrite Hinv. reflexivity. }
  assert (H1 : (a * K <= rne (x / pow2 e))%Z).
  { apply rne_ge_int. rewrite Hq, inject_Z_mult. nra. }
  assert (H2 : (rne (x / pow2 e) <= b * K)%Z).
  { apply rne_le_int. rewrite Hq, inject_Z_mult. nra. }
  rewrite Zle_Qle, inject_Z_mult in H1, H2.
  assert (Hone : forall c, c == c * inject_Z K * pow2 e).
  { intros c. rewrite <- Qmult_assoc, (Qmult_comm (inject_Z K)), HK. ring. }
  split.
  - rewrite (Hone (inject_Z a)). apply Qmult_le_compat_r; lra.
  - rewrite (Hone (inject_Z b)). apply Qmult_le_compat_r; lra.
Qed.

Lemma round_between (x : Q) (a b : Z) :
  inject_Z a <= x -> x <= inject_Z b ->
  (- 2 ^ 53 < a)%Z -> (b < 2 ^ 53)%Z ->
  inject_Z a <= round x /\ round x <= inject_Z b.
Proof.
  intros Ha Hb Hla Hub.
  assert (Habs : Qabs x < inject_Z (2 ^ 53)).
  { rewrite Zlt_Qlt in Hla, Hub. rewrite inject_Z_opp in Hla.
    apply Qabs_case; intros; lra. }
  unfold round. destruct (Qcompare x 0) eqn:Hc.
  - apply Qeq_alt in Hc. split; lra.
  - apply Qlt_alt in Hc.
    apply scaled_between; auto. apply ulp_exp_small; auto. lra.
  - apply Qgt_alt in Hc.
    apply scaled_between; auto. apply ulp_exp_small; auto. lra.
Qed.

Lemma to_int_between (x : Q) (a b : Z) :
  inject_Z a <= x -> x <= inject_Z b -> (a <= to_int x <= b)%Z.
Proof.
  intros Ha Hb. unfold to_int. destruct x as [n d].
  unfold Qle in *. simpl in *.
  rewrite Z.mul_1_r in *.
  pose proof (Z.quot_rem' n (Z.pos d)).
  pose proof (Z.rem_bound_pos_pos).
  destruct (Z_le_gt_dec 0 n).
  - rewrite Z.quot_div_nonneg by lia.
    split.
    + apply Z.div_le_lower_bound; lia.
    + apply Z.div_le_upper_bound; lia.
  - assert (Hq : (Z.quot n (Z.pos d) = - ((- n) / Z.pos d))%Z).
    { rewrite <- Z.quot_div_nonneg by lia. rewrite Z.quot_opp_l by lia. lia. }
    rewrite Hq.
    assert (0 <= (- n) / Z.pos d)%Z by (apply Z.div_pos; lia).
    pose proof (Z.mul_div_le (- n) (Z.pos d) ltac:(lia)).
    pose proof (Z.mul_succ_div_gt (- n) (Z.pos d) ltac:(lia)).
    split; nia.
Qed.

(** The error of one rounding is half a unit in the last place. *)
Lemma rne_error (q : Q) :
  - (1 # 2) <= inject_Z (rne q) - q /\ inject_Z (rne q) - q <= 1 # 2.
Proof.
  pose proof (Qfloor_le q) as Hlo. pose proof (Qlt_floor q) as Hhi.
  rewrite inject_Z_plus in Hhi. change (inject_Z 1) with 1 in Hhi.
  unfold rne. destruct (Qcompare _ _) eqn:Hc.
  - apply Qeq_alt in Hc.
    destruct (Z.even _); [|rewrite inject_Z_plus; change (inject_Z 1) with 1];
      split; lra.
  - apply Qlt_alt in Hc. split; lra.
  - apply Qgt_alt in Hc. rewrite inject_Z_plus. change (inject_Z 1) with 1.
    split; lra.
Qed.

Lemma pow2_le (a b : Z) : (a <= b)%Z -> pow2 a <= pow2 b.
Proof.
  intros H. unfold pow2. apply Qpower_le_compat_l; [exact H|]. discriminate.
Qed.

Lemma round_error (y : Q) (k : Z) :
  (0 <= k)%Z -> - inject_Z (2 ^ k) < y -> y < inject_Z (2 ^ k) ->
  - ((1 # 2) * pow2 (k - 53)) <= round y - y
  /\ round y - y <= (1 # 2) * pow2 (k - 53).
Proof.
  intros Hk Hlo Hhi.
  pose proof (pow2_pos (k - 53)) as HB.
  pose proof (ilog2_below (Qabs y) k Hk) as Hlog.
  set (M := inject_Z (2 ^ k)) in *.
  unfold round. destruct (Qcompare y 0) eqn:Hc.
  { apply Qeq_alt in Hc. split; lra. }
  all: assert (Hy : ~ y == 0)
    by (first [apply Qlt_alt in Hc | apply Qgt_alt in Hc]; lra); clear Hc.
  all: cbv zeta.
  all: assert (He : (ulp_exp y <= k - 53)%Z)
    by (unfold ulp_exp, mant_bits, emin;
        assert (0 < Qabs y) by (apply Qabs_case; intros; lra);
        assert (Qabs y < M) by (apply Qabs_case; intros; lra);
        specialize (Hlog ltac:(assumption) ltac:(assumption)); lia).
  all: pose proof (pow2_le _ _ He) as HP;
    pose proof (pow2_pos (ulp_exp y)) as HP0;
    set (P := pow2 (ulp_exp y)) in *;
    destruct (rne_error (y / P)) as [E1 E2];
    set (r := inject_Z (rne (y / P))) in *;
    assert (Hq : y == (y / P) * P) by (field; lra);
    set (q := y / P) in *;
    assert (Hd : r * P - y == (r - q) * P) by (rewrite Hq at 1; ring);
    rewrite Hd;
    assert (H1 : (r - q) * P <= (1 # 2) * P)
      by (apply Qmult_le_compat_r; lra);
    assert (H2 : - (1 # 2) * P <= (r - q) * P)
      by (apply Qmult_le_compat_r; lra);
    split; lra.
Qed.

End Float64Facts.

(** The rational model computes what the IEEE 754 specification computes,
    here on the two ends of 1987-03-01, on the instants around the epoch and
    on the first and the last millisecond [datetime] can name. *)
Lemma float_model_agrees_with_spec_float :
  forallb agrees_with_spec_float
    [541555200000000; 541641599999000; 0; -1000; 999000;
     -62135683200000000; 253402387199999000; 1762732799999000]
  = true.
Proof. vm_compute. reflexivity. Qed.

(** ** What [int] and the unpacking raise *)

Lemma py_int_cases (s : string) :
  (exists z, py_int s = Ok z) \/ py_int s = Raise ValueError.
Proof. unfold py_int. destruct (parse_int s); eauto. Qed.

Lemma unpack3_raises (parts : list string) (e : exn) :
  unpack3 parts = Raise e -> e = ValueError.
Proof.
  unfold unpack3.
  destruct parts as [|a [|b [|c [|x rest]]]];
    repeat match goal with
      | |- context [py_int ?s] =>
          let H := fresh in
          destruct (py_int_cases s) as [[? H]|H]; rewrite H; cbn [bind]
      end; congruence.
Qed.

Lemma unpack3_wrong_length (parts : list string) :
  List.length parts <> 3%nat -> unpack3 parts = Raise ValueError.
Proof.
  intros H. destruct (unpack3 parts) as [[[y m] d]|e] eqn:E.
  - exfalso. apply H. unfold unpack3 in E.
    destruct parts as [|a [|b [|c [|x rest]]]]; try reflexivity;
      repeat match type of E with
        | context [py_int ?s] =>
            let H := fresh in
            destruct (py_int_cases s) as [[? H]|H]; rewrite H in E;
            cbn [bind] in E
        end; discriminate.
  - f_equal. eapply unpack3_raises, E.
Qed.

(** ** The calendar and the closed form of [day_range_ms] *)

Lemma check_date_fields_eq y m d :
  check_date_fields y m d
  = if valid_date y m d then Ok tt else Raise ValueError.
Proof.
  unfold check_date_fields, valid_date.
  destruct ((MINYEAR <=? y) && (y <=? MAXYEAR)); simpl; [|reflexivity].
  destruct ((1 <=? m) && (m <=? 12)); simpl; [|reflexivity].
  destruct ((1 <=? d) && (d <=? days_in_month y m)); reflexivity.
Qed.

Lemma new_datetime_midnight y m d tz :
  new_datetime y m d 0 0 0 0 tz
  = if negb (fits_date y m d) then Raise OverflowError
    else if valid_date y m d
         then Ok {| year := y; month := m; day := d; hour := 0; minute := 0;
                    second := 0; microsecond := 0; tzinfo := tz |}
         else Raise ValueError.
Proof.
  unfold new_datetime, fits_date. rewrite check_date_fields_eq.
  change (fits_int 0) with true. rewrite !andb_true_r.
  destruct (fits_int y && fits_int m && fits_int d); simpl; [|reflexivity].
  destruct (valid_date y m d); reflexivity.
Qed.

Lemma new_datetime_last_ms y m d tz :
  new_datetime y m d 23 59 59 999000 tz
  = if negb (fits_date y m d) then Raise OverflowError
    else if valid_date y m d
         then Ok {| year := y; month := m; day := d; hour := 23; minute := 59;
                    second := 59; microsecond := 999000; tzinfo := tz |}
         else Raise ValueError.
Proof.
  unfold new_datetime, fits_date. rewrite check_date_fields_eq.
  change (fits_int 23) with true. change (fits_int 59) with true.
  change (fits_int 999000) with true. rewrite !andb_true_r.
  destruct (fits_int y && fits_int m && fits_int d); simpl; [|reflexivity].
  destruct (valid_date y m d); reflexivity.
Qed.

Lemma timezone_of_hours tz_hours :
  (td <- timedelta_hours tz_hours ;; new_timezone td)
  = if negb (offset_in_delta_range tz_hours) then Raise OverflowError
    else if offset_ok tz_hours then Ok (mk_tz tz_hours) else Raise ValueError.
Proof.
  unfold timedelta_hours, new_delta, offset_in_delta_range, offset_ok.
  assert (E : tz_hours * US_PER_HOUR / US_PER_DAY = tz_hours / 24).
  { unfold US_PER_DAY. apply Z.div_mul_cancel_r; discriminate. }
  rewrite E.
  destruct (Z.abs (tz_hours / 24) <=? MAX_DELTA_DAYS); simpl; [|reflexivity].
  unfold new_timezone. simpl td_us.
  assert (E2 : (- US_PER_DAY <? tz_hours * US_PER_HOUR) = (-24 <? tz_hours)).
  { unfold US_PER_DAY, US_PER_HOUR, US_PER_SECOND.
    destruct (Z.ltb_spec (-24) tz_hours),
      (Z.ltb_spec (- (24 * (3600 * 1000000))) (tz_hours * (3600 * 1000000)));
      lia. }
  assert (E3 : (tz_hours * US_PER_HOUR <? US_PER_DAY) = (tz_hours <? 24)).
  { unfold US_PER_DAY, US_PER_HOUR, US_PER_SECOND.
    destruct (Z.ltb_spec tz_hours 24),
      (Z.ltb_spec (tz_hours * (3600 * 1000000)) (24 * (3600 * 1000000)));
      lia. }
  rewrite E2, E3.
  destruct ((-24 <? tz_hours) && (tz_hours <? 24)); reflexivity.
Qed.

(** [day_range_ms] in closed form: which check fails first, or the pair. *)
Lemma day_range_ms_eq (date_str : string) (tz_hours : Z) :
  day_range_ms date_str tz_hours
  = match unpack3 (split dash date_str) with
    | Raise e => Raise e
    | Ok (y, m, d) =>
        if negb (offset_in_delta_range tz_hours) then Raise OverflowError
        else if negb (offset_ok tz_hours) then Raise ValueError
        else if negb (fits_date y m d) then Raise OverflowError
        else if negb (valid_date y m d) then Raise ValueError
        else Ok (ms_of (day_start y m d tz_hours),
                 ms_of (day_end y m d tz_hours))
    end.
Proof.
  unfold day_range_ms.
  destruct (unpack3 (split dash date_str)) as [[[y m] d]|e]; [|reflexivity].
  cbn [bind].
  pose proof (timezone_of_hours tz_hours) as Htz. unfold bind in Htz.
  destruct (timedelta_hours tz_hours) as [td|e].
  - cbn [bind]. rewrite Htz.
    destruct (offset_in_delta_range tz_hours); simpl; [|reflexivity].
    destruct (offset_ok tz_hours); simpl; [|reflexivity].
    rewrite new_datetime_midnight, new_datetime_last_ms.
    destruct (fits_date y m d); simpl; [|reflexivity].
    destruct (valid_date y m d); reflexivity.
  - cbn [bind].
    destruct (offset_in_delta_range tz_hours); simpl in *; [|congruence].
    destruct (offset_ok tz_hours); simpl in *; congruence.
Qed.

Lemma ms_of_between (t : datetime) (a b : Z) :
  a * US_PER_SECOND <= td_us (since_epoch t) <= b * US_PER_SECOND ->
  - 2 ^ 53 < 1000 * a -> 1000 * b < 2 ^ 53 ->
  1000 * a <= ms_of t <= 1000 * b.
Proof.
  intros [Hlo Hhi] Ha Hb.
  unfold ms_of, timestamp, total_seconds, Float64.mul_int, Float64.true_div.
  set (u := td_us (since_epoch t)) in *.
  assert (Hab : a <= b) by (unfold US_PER_SECOND in *; lia).
  assert (Hx : (inject_Z a <= inject_Z u / inject_Z US_PER_SECOND
                /\ inject_Z u / inject_Z US_PER_SECOND <= inject_Z b)%Q).
  { rewrite Zle_Qle, inject_Z_mult in Hlo, Hhi.
    assert (0 < inject_Z US_PER_SECOND)%Q by reflexivity.
    split.
    - apply Qle_shift_div_l; assumption.
    - apply Qle_shift_div_r; assumption. }
  destruct Hx as [Hx1 Hx2].
  destruct (Float64Facts.round_between _ a b Hx1 Hx2) as [Hr1 Hr2]; try lia.
  set (r := Float64.round (inject_Z u / inject_Z US_PER_SECOND)) in *.
  assert (Hy : (inject_Z (1000 * a) <= r * inject_Z 1000
                /\ r * inject_Z 1000 <= inject_Z (1000 * b))%Q).
  { rewrite !inject_Z_mult. change (inject_Z 1000) with (1000 # 1)%Q.
    split; lra. }
  destruct Hy as [Hy1 Hy2].
  destruct (Float64Facts.round_between _ _ _ Hy1 Hy2) as [Hs1 Hs2]; try lia.
  apply Float64Facts.to_int_between; assumption.
Qed.

(** A whole number of milliseconds comes out at most one off. *)
Lemma ms_of_near (t : datetime) (n : Z) :
  td_us (since_epoch t) = 1000 * n ->
  - (1000 * 2 ^ 38) < n < 1000 * 2 ^ 38 ->
  n - 1 <= ms_of t <= n + 1.
Proof.
  intros Hu Hn.
  unfold ms_of, timestamp, total_seconds, Float64.mul_int, Float64.true_div.
  rewrite Hu. set (x := (inject_Z (1000 * n) / inject_Z US_PER_SECOND)%Q).
  assert (Hx : (x * 1000 == inject_Z n)%Q).
  { subst x. rewrite inject_Z_mult. unfold US_PER_SECOND.
    change (inject_Z 1000000) with (1000000 # 1)%Q.
    change (inject_Z 1000) with (1000 # 1)%Q. field. }
  assert (Hnq : (- (1000 * inject_Z (2 ^ 38)) < inject_Z n
                 /\ inject_Z n < 1000 * inject_Z (2 ^ 38))%Q).
  { change 1000%Q with (inject_Z 1000).
    rewrite <- inject_Z_mult, <- inject_Z_opp, <- !Zlt_Qlt. lia. }
  destruct Hnq as [Hn1 Hn2].
  destruct (Float64Facts.round_error x 38) as [E1 E2]; try lia.
  { change (inject_Z (2 ^ 38)) with (274877906944 # 1)%Q in *. lra. }
  { change (inject_Z (2 ^ 38)) with (274877906944 # 1)%Q in *. lra. }
  change (Float64.pow2 (38 - 53)) with (1 # 32768)%Q in E1, E2.
  set (t1 := Float64.round x) in *.
  change (inject_Z 1000) with (1000 # 1)%Q.
  destruct (Float64Facts.round_error (t1 * (1000 # 1)) 48) as [F1 F2]; try lia.
  { change (inject_Z (2 ^ 48)) with (281474976710656 # 1)%Q.
    change (inject_Z (2 ^ 38)) with (274877906944 # 1)%Q in *. lra. }
  { change (inject_Z (2 ^ 48)) with (281474976710656 # 1)%Q.
    change (inject_Z (2 ^ 38)) with (274877906944 # 1)%Q in *. lra. }
  change (Float64.pow2 (48 - 53)) with (1 # 32)%Q in F1, F2.
  set (p := Float64.round (t1 * (1000 # 1))) in *.
  apply Float64Facts.to_int_between.
  - replace (n - 1) with (n + -1) by lia.
    rewrite inject_Z_plus. change (inject_Z (-1)) with (-1 # 1)%Q. lra.
  - rewrite inject_Z_plus. change (inject_Z 1) with 1%Q. lra.
Qed.

Lemma days_before_year_bounds y :
  MINYEAR <= y <= MAXYEAR -> 0 <= days_before_year y <= 3651695.
Proof.
  unfold MINYEAR, MAXYEAR, days_before_year. intros H.
  cbv zeta. Z.to_euclidean_division_equations. lia.
Qed.

Lemma valid_date_inv y m d :
  valid_date y m d = true ->
  MINYEAR <= y <= MAXYEAR /\ 1 <= m <= 12 /\ 1 <= d <= days_in_month y m.
Proof.
  unfold valid_date. rewrite !andb_true_iff, !Z.leb_le. tauto.
Qed.

Lemma month_cases m :
  1 <= m <= 12 ->
  m = 1 \/ m = 2 \/ m = 3 \/ m = 4 \/ m = 5 \/ m = 6 \/ m = 7 \/ m = 8
  \/ m = 9 \/ m = 10 \/ m = 11 \/ m = 12.
Proof. lia. Qed.

Lemma ymd2ord_bounds y m d :
  valid_date y m d = true -> 1 <= ymd2ord y m d <= 3652061.
Proof.
  intros H. apply valid_date_inv in H. destruct H as (Hy & Hm & Hd).
  pose proof (days_before_year_bounds y Hy) as Hb.
  unfold ymd2ord, days_before_month, days_in_month in *.
  destruct (month_cases m Hm) as [E|[E|[E|[E|[E|[E|[E|[E|[E|[E|[E|E]]]]]]]]]]];
    subst m; destruct (is_leap y); simpl in *; lia.
Qed.

Lemma offset_ok_inv tz : offset_ok tz = true -> -24 < tz < 24.
Proof. unfold offset_ok. rewrite andb_true_iff, !Z.ltb_lt. tauto. Qed.

Lemma epoch_seconds_bounds y m d tz :
  valid_date y m d = true -> offset_ok tz = true ->
  - 62135683200 <= epoch_seconds y m d tz <= 253402473600.
Proof.
  intros Hv Ho. apply ymd2ord_bounds in Hv. apply offset_ok_inv in Ho.
  unfold epoch_seconds. change EPOCH_ORDINAL with 719163. lia.
Qed.

(** The start of the range is exact. *)
Lemma ms_of_day_start y m d tz :
  valid_date y m d = true -> offset_ok tz = true ->
  ms_of (day_start y m d tz) = 1000 * epoch_seconds y m d tz.
Proof.
  intros Hv Ho. pose proof (epoch_seconds_bounds y m d tz Hv Ho) as Hb.
  pose proof (ms_of_between (day_start y m d tz)
                (epoch_seconds y m d tz) (epoch_seconds y m d tz)) as H.
  assert (E : td_us (since_epoch (day_start y m d tz))
              = epoch_seconds y m d tz * US_PER_SECOND).
  { unfold since_epoch, day_start, epoch_seconds, mk_tz.
    cbn [year month day hour minute second microsecond tzinfo utcoffset td_us].
    unfold US_PER_HOUR, US_PER_SECOND. lia. }
  rewrite E in H. lia.
Qed.

(** The end of the range is the last millisecond of the day, or the one
    before, or the one after. *)
Lemma ms_of_day_end y m d tz :
  valid_date y m d = true -> offset_ok tz = true ->
  1000 * epoch_seconds y m d tz + 86399998
  <= ms_of (day_end y m d tz)
  <= 1000 * epoch_seconds y m d tz + 86400000.
Proof.
  intros Hv Ho. pose proof (epoch_seconds_bounds y m d tz Hv Ho) as Hb.
  pose proof (ms_of_near (day_end y m d tz)
                (1000 * epoch_seconds y m d tz + 86399999)) as H.
  assert (E : td_us (since_epoch (day_end y m d tz))
              = 1000 * (1000 * epoch_seconds y m d tz + 86399999)).
  { unfold since_epoch, day_end, epoch_seconds, mk_tz.
    cbn [year month day hour minute second microsecond tzinfo utcoffset td_us].
    unfold US_PER_HOUR, US_PER_SECOND. lia. }
  specialize (H E). lia.
Qed.

(** ** The range that [day_range_ms] returns, and what it raises *)

Lemma offset_in_delta_range_spec (tz : Z) :
  offset_in_delta_range tz = true <-> -23999999976 <= tz < 24000000000.
Proof.
  unfold offset_in_delta_range, MAX_DELTA_DAYS. rewrite Z.leb_le.
  Z.to_euclidean_division_equations. lia.
Qed.

Lemma offset_ok_delta_range (tz : Z) :
  offset_ok tz = true -> offset_in_delta_range tz = true.
Proof.
  intros H. apply offset_ok_inv in H. apply offset_in_delta_range_spec. lia.
Qed.

Lemma day_range_ms_raises (date_str : string) (tz : Z) (e : exn) :
  day_range_ms date_str tz = Raise e -> e = ValueError \/ e = OverflowError.
Proof.
  rewrite day_range_ms_eq.
  destruct (unpack3 _) as [[[y m] d]|e0] eqn:E.
  - destruct (offset_in_delta_range tz), (offset_ok tz), (fits_date y m d),
      (valid_date y m d); simpl; intros [= <-]; auto.
  - intros [= <-]. left. eapply unpack3_raises, E.
Qed.

Lemma day_range_ms_date_ok (date_str : string) (tz lo hi : Z) :
  day_range_ms date_str tz = Ok (lo, hi) ->
  date_ok date_str = true /\ offset_ok tz = true.
Proof.
  rewrite day_range_ms_eq. unfold date_ok.
  destruct (unpack3 _) as [[[y m] d]|e0]; [|discriminate].
  destruct (offset_in_delta_range tz), (offset_ok tz), (fits_date y m d),
    (valid_date y m d); simpl; intros [=]; auto.
Qed.

(** When the error is [OverflowError]: the date string splits into three
    integers, and the offset is too large for [timedelta] or, the offset
    being accepted, one of the integers is too large for a C [int]. *)
Lemma day_range_ms_overflow_iff (date_str : string) (tz : Z) :
  day_range_ms date_str tz = Raise OverflowError
  <-> exists y m d,
        unpack3 (split dash date_str) = Ok (y, m, d)
        /\ (~ (-23999999976 <= tz < 24000000000)
            \/ (-24 < tz < 24 /\ fits_date y m d = false)).
Proof.
  rewrite day_range_ms_eq. split.
  - destruct (unpack3 _) as [[[y m] d]|e] eqn:U.
    + intros H. exists y, m, d. split; [reflexivity|].
      destruct (offset_in_delta_range tz) eqn:Hd; simpl in H.
      * destruct (offset_ok tz) eqn:Ho; simpl in H; [|discriminate].
        apply offset_ok_inv in Ho.
        destruct (fits_date y m d); simpl in H; [|auto].
        destruct (valid_date y m d); discriminate.
      * left. rewrite <- offset_in_delta_range_spec. congruence.
    + intros [= ->]. apply unpack3_raises in U. discriminate.
  - intros (y & m & d & -> & [Hr | [Ho Hf]]).
    + destruct (offset_in_delta_range tz) eqn:Hd; [|reflexivity].
      apply offset_in_delta_range_spec in Hd. contradiction.
    + assert (Hok : offset_ok tz = true).
      { unfold offset_ok. rewrite andb_true_iff, !Z.ltb_lt. lia. }
      rewrite (offset_ok_delta_range _ Hok), Hok, Hf. reflexivity.
Qed.

(** What a returned range is: the start is local midnight to the
    millisecond, and the end is the last millisecond of that day, or the one
    before, or the one after. *)
Lemma day_range_ms_shape (date_str : string) (tz lo hi : Z) :
  day_range_ms date_str tz = Ok (lo, hi) ->
  exists y m d,
    unpack3 (split dash date_str) = Ok (y, m, d)
    /\ valid_date y m d = true /\ offset_ok tz = true
    /\ lo = 1000 * epoch_seconds y m d tz
    /\ lo + 86399998 <= hi <= lo + 86400000.
Proof.
  rewrite day_range_ms_eq.
  destruct (unpack3 _) as [[[y m] d]|]; [|discriminate].
  destruct (offset_in_delta_range tz); simpl; [|discriminate].
  destruct (offset_ok tz) eqn:Ho; simpl; [|discriminate].
  destruct (fits_date y m d); simpl; [|discriminate].
  destruct (valid_date y m d) eqn:Hv; simpl; [|discriminate].
  intros [= <- <-]. exists y, m, d.
  pose proof (ms_of_day_start y m d tz Hv Ho).
  pose proof (ms_of_day_end y m d tz Hv Ho).
  repeat split; auto; lia.
Qed.

(** The range is never empty. *)
Lemma day_range_ms_ordered date tz lo hi :
  day_range_ms date tz = Ok (lo, hi) -> lo <= hi.
Proof.
  intros H. apply day_range_ms_shape in H.
  destruct H as (y & m & d & _ & _ & _ & _ & H). lia.
Qed.

(** One more hour of offset moves the start one hour back, exactly. *)
Lemma day_range_ms_start_shift (date_str : string) (tz lo hi lo' hi' : Z) :
  day_range_ms date_str tz = Ok (lo, hi) ->
  day_range_ms date_str (tz + 1) = Ok (lo', hi') ->
  lo' = lo - 3600000.
Proof.
  intros H H'. apply day_range_ms_shape in H, H'.
  destruct H as (y & m & d & E & _ & _ & -> & _).
  destruct H' as (y' & m' & d' & E' & _ & _ & -> & _).
  rewrite E in E'. injection E' as <- <- <-.
  unfold epoch_seconds. lia.
Qed.

(** It moves the end one hour back within two milliseconds. *)
Lemma day_range_ms_end_shift (date_str : string) (tz lo hi lo' hi' : Z) :
  day_range_ms date_str tz = Ok (lo, hi) ->
  day_range_ms date_str (tz + 1) = Ok (lo', hi') ->
  hi - 3600002 <= hi' <= hi - 3599998.
Proof.
  intros H H'. pose proof (day_range_ms_start_shift _ _ _ _ _ _ H H').
  apply day_range_ms_shape in H, H'.
  destruct H as (_ & _ & _ & _ & _ & _ & _ & H).
  destruct H' as (_ & _ & _ & _ & _ & _ & _ & H'). lia.
Qed.

(** Other days whose end is off, at offset 0: one millisecond short after
    1970, one millisecond long before. *)
Lemma day_range_ms_other_days_off :
  day_range_ms "1971-01-24" 0 = Ok (33523200000, 33609599998)
  /\ day_range_ms "2106-02-07" 0 = Ok (4294944000000, 4295030399998)
  /\ day_range_ms "1969-06-16" 0 = Ok (-17193600000, -17107200000).
Proof. repeat split; vm_compute; reflexivity. Qed.

(** The example of the spec: 2025-11-09 at offset 0. *)
Lemma day_range_ms_2025_11_09 :
  day_range_ms "2025-11-09" 0 = Ok (1762646400000, 1762732799999).
Proof. vm_compute. reflexivity. Qed.

(** ** The query *)

Section QueryFacts.

Variable value : Type.

Lemma insert_by_time_perm (r : row value) (l : list (row value)) :
  Permutation (insert_by_time r l) (r :: l).
Proof.
  induction l as [|x xs IH]; simpl.
  - apply Permutation_refl.
  - destruct (row_time r <=? row_time x).
    + apply Permutation_refl.
    + eapply perm_trans; [apply perm_skip, IH | apply perm_swap].
Qed.

Lemma order_by_time_perm (l : list (row value)) :
  Permutation (order_by_time l) l.
Proof.
  induction l as [|r rs IH]; simpl.
  - constructor.
  - eapply perm_trans; [apply insert_by_time_perm | apply perm_skip, IH].
Qed.

Lemma insert_by_time_sorted (r : row value) (l : list (row value)) :
  StronglySorted time_le l -> StronglySorted time_le (insert_by_time r l).
Proof.
  induction 1 as [|x xs Hs IH Hall]; simpl.
  - repeat constructor.
  - destruct (Z.leb_spec (row_time r) (row_time x)) as [Hle|Hgt].
    + constructor; [constructor; assumption|].
      constructor; [exact Hle|].
      rewrite Forall_forall in *. intros y Hy.
      specialize (Hall y Hy). unfold time_le in *. lia.
    + constructor; [exact IH|].
      rewrite Forall_forall in *. intros y Hy.
      apply (Permutation_in _ (insert_by_time_perm r xs)) in Hy.
      destruct Hy as [<-|Hy]; [unfold time_le; lia | auto].
Qed.

Lemma order_by_time_sorted (l : list (row value)) :
  StronglySorted time_le (order_by_time l).
Proof.
  induction l as [|r rs IH]; simpl.
  - constructor.
  - apply insert_by_time_sorted, IH.
Qed.

Lemma In_run_query (table : list (order value)) tid sym lo hi (r : row value) :
  In r (run_query table tid sym lo hi)
  <-> exists o, In o table /\ where_ tid sym lo hi o = true /\ select o = r.
Proof.
  unfold run_query. split.
  - intros H. apply (Permutation_in _ (order_by_time_perm _)) in H.
    apply in_map_iff in H. destruct H as (o & Ho & Hin).
    apply filter_In in Hin. exists o. tauto.
  - intros (o & Hin & Hw & <-).
    apply (Permutation_in _ (Permutation_sym (order_by_time_perm _))).
    apply in_map, filter_In. tauto.
Qed.

Lemma where_spec tid sym lo hi (o : order value) :
  where_ tid sym lo hi o = true
  <-> trader_id o = tid /\ symbol o = sym /\ lo <= time o <= hi.
Proof.
  unfold where_. rewrite !andb_true_iff, !String.eqb_eq, !Z.leb_le. tauto.
Qed.

Lemma row_time_select (o : order value) : row_time (select o) = time o.
Proof. reflexivity. Qed.

(** C2.  With the range that [day_range_ms] returns, a stored order of the
    queried trader and symbol is selected when its time is the start or the
    end of the range, and is not when its time is one millisecond before
    the start or one after the end. *)
Theorem C2_between_is_inclusive
  (table : list (order value)) (tid sym date : string) (tz lo hi : Z)
  (o : order value) :
  day_range_ms date tz = Ok (lo, hi) ->
  In o table -> trader_id o = tid -> symbol o = sym ->
  ((time o = lo \/ time o = hi) ->
     In (select o) (run_query table tid sym lo hi))
  /\ ((time o = lo - 1 \/ time o = hi + 1) ->
        ~ In (select o) (run_query table tid sym lo hi)).
Proof.
  intros Hr Hin Ht Hs. apply day_range_ms_ordered in Hr. split.
  - intros Hb. apply In_run_query. exists o. split; [assumption|].
    split; [|reflexivity]. apply where_spec. repeat split; try assumption; lia.
  - intros Hb Hq. apply In_run_query in Hq.
    destruct Hq as (o' & _ & Hw & He).
    apply where_spec in Hw.
    assert (time o' = time o).
    { rewrite <- !row_time_select. now rewrite He. }
    lia.
Qed.

End QueryFacts.

Section MainFacts.

Variable value : Type.
Variable py_str : value -> string.
Variable fmt_g6 : value -> string.
Variable local_time_str : Z -> result string.

(** What [main] does once its arguments are read and the range is known. *)
Lemma main_usage (argv : list string) (db : store value) :
  (List.length argv < 4)%nat ->
  main py_str fmt_g6 local_time_str argv db
  = ([Stdout (strip USAGE)], Raise (SystemExit 1)).
Proof.
  intros H. unfold main. apply Nat.ltb_lt in H. rewrite H. reflexivity.
Qed.

Lemma main_bad_offset_arg (argv : list string) (db : store value) e :
  (4 <= List.length argv)%nat -> tz_arg argv = Raise e ->
  main py_str fmt_g6 local_time_str argv db = ([], Raise e).
Proof.
  intros H Ht. unfold main.
  apply Nat.ltb_ge in H. rewrite H, Ht. reflexivity.
Qed.

Lemma main_bad_range (argv : list string) (db : store value) tz e :
  (4 <= List.length argv)%nat -> tz_arg argv = Ok tz ->
  day_range_ms (nth 3 argv "") tz = Raise e ->
  main py_str fmt_g6 local_time_str argv db = ([], Raise e).
Proof.
  intros H Ht Hr. unfold main.
  apply Nat.ltb_ge in H. rewrite H, Ht. cbn. rewrite Hr. reflexivity.
Qed.

Lemma main_query (argv : list string) (table : list (order value)) tz lo hi :
  (4 <= List.length argv)%nat -> tz_arg argv = Ok tz ->
  day_range_ms (nth 3 argv "") tz = Ok (lo, hi) ->
  let rows := run_query table (nth 1 argv "") (nth 2 argv "") lo hi in
  let out := print_rows py_str fmt_g6 local_time_str rows in
  main py_str fmt_g6 local_time_str argv (Some table)
  = ([Connect; Execute (nth 1 argv "") (nth 2 argv "") lo hi;
      Stdout (summary_line (List.length rows) (nth 2 argv "")
               (nth 3 argv "") tz)]
       ++ fst out ++ match snd out with Ok _ => [Close] | Raise _ => [] end,
     snd out)%list.
Proof.
  intros H Ht Hr rows out. unfold main.
  apply Nat.ltb_ge in H. rewrite H, Ht. cbn. rewrite Hr. cbn.
  fold rows. fold out. destruct out as [t [[]|e]]; cbn.
  - reflexivity.
  - rewrite app_nil_r. reflexivity.
Qed.

End MainFacts.

(** ** The row loop *)

Section MoreToolFacts.

Variable value : Type.
Variable py_str : value -> string.
Variable fmt_g6 : value -> string.
Variable local_time_str : Z -> result string.

Lemma print_rows_prints_only (rows : list (row value)) :
  fst (print_rows py_str fmt_g6 local_time_str rows)
  = map Stdout (printed (fst (print_rows py_str fmt_g6 local_time_str rows))).
Proof.
  induction rows as [|r rs IH]; simpl; [reflexivity|].
  unfold lift. destruct (local_time_str (row_time r)) as [ts|e]; cbn;
    [|reflexivity].
  destruct (print_rows py_str fmt_g6 local_time_str rs) as [t res]; cbn in *.
  now rewrite <- IH.
Qed.

Lemma print_rows_in_order (rows : list (row value)) :
  exists k : nat,
    (k <= List.length rows)%nat
    /\ map Some (printed (fst (print_rows py_str fmt_g6 local_time_str rows)))
       = map (render py_str fmt_g6 local_time_str) (firstn k rows)
    /\ (snd (print_rows py_str fmt_g6 local_time_str rows) = Ok tt ->
        k = List.length rows).
Proof.
  induction rows as [|r rs (k & Hk & Hmap & Hall)]; simpl.
  - exists 0%nat. repeat split; auto.
  - unfold lift.
    destruct (local_time_str (row_time r)) as [ts|e] eqn:E; cbn.
    + destruct (print_rows py_str fmt_g6 local_time_str rs) as [t res] eqn:P.
      cbn in *. exists (S k). repeat split.
      * lia.
      * cbn. unfold render at 1. rewrite E. now rewrite Hmap.
      * intros Hres. f_equal. auto.
    + exists 0%nat. repeat split; [lia | discriminate].
Qed.

End MoreToolFacts.

(** ** The range calculator on the claims *)

(** C1.  [day_range_ms] on 1987-03-01 at offset 0: the start is local
    midnight exactly, and the end is 86399998 ms later, not 86399999: the
    product of the float time stamp by 1000 falls just below the integer and
    [int] cuts it. *)
Theorem C1_end_of_day_is_cut_short :
  exists lo hi,
    day_range_ms "1987-03-01" 0 = Ok (lo, hi)
    /\ lo = 1000 * epoch_seconds 1987 3 1 0
    /\ hi - lo = 86399998.
Proof.
  exists 541555200000, 541641599998. vm_compute. auto.
Qed.

(** C4.  On 1987-06-03 the offsets 2 and 3 give starts that differ by
    3600000 ms and ends that differ by 3600001 ms. *)
Theorem C4_hour_shift_breaks_at_the_end :
  exists lo hi lo' hi',
    day_range_ms "1987-06-03" 2 = Ok (lo, hi)
    /\ day_range_ms "1987-06-03" 3 = Ok (lo', hi')
    /\ lo - lo' = 3600000
    /\ hi - hi' = 3600001.
Proof.
  exists 549669600000, 549755999999, 549666000000, 549752399998.
  vm_compute. auto.
Qed.

(** C9.  The strict format is not enforced: parts without leading zeros,
    with white space around them or with a plus sign give the range of the
    zero-padded date; a string that does not split on the dash into three
    parts raises [ValueError]. *)
Theorem C9_lenient_parts_and_part_count :
  day_range_ms "2025-01-09" 8 = Ok (1736352000000, 1736438399999)
  /\ day_range_ms "2025-1-9" 8 = day_range_ms "2025-01-09" 8
  /\ day_range_ms " 2025 - 01 -09 " 8 = day_range_ms "2025-01-09" 8
  /\ day_range_ms "+2025-+1-+9" 8 = day_range_ms "2025-01-09" 8
  /\ forall (date_str : string) (tz : Z),
       List.length (split dash date_str) <> 3%nat ->
       day_range_ms date_str tz = Raise ValueError.
Proof.
  split; [vm_compute; reflexivity|].
  split; [vm_compute; reflexivity|].
  split; [vm_compute; reflexivity|].
  split; [vm_compute; reflexivity|].
  intros date_str tz H. rewrite day_range_ms_eq.
  now rewrite (unpack3_wrong_length _ H).
Qed.

(** C9 at a date string of two parts. *)
Lemma C9_witness : day_range_ms "2025-11" 8 = Raise ValueError.
Proof.
  apply (proj2 (proj2 (proj2 (proj2 C9_lenient_parts_and_part_count)))).
  vm_compute. discriminate.
Defined.

(** C10 as stated fails: an offset beyond what [timedelta] holds raises
    [OverflowError]. *)
Lemma C10_huge_offset_overflows :
  24 <= Z.abs 24000000000
  /\ day_range_ms "2025-11-09" 24000000000 = Raise OverflowError.
Proof. split; [lia | vm_compute; reflexivity]. Qed.

(** C10, amended.  An offset of 24 hours or more in absolute value never
    gives a range: [ValueError] as long as [timedelta] holds the offset,
    [OverflowError] beyond when the date splits into three integers. *)
Theorem C10_offset_of_a_day_or_more_raises (date_str : string) (tz : Z) :
  24 <= Z.abs tz ->
  (forall r, day_range_ms date_str tz <> Ok r)
  /\ (-23999999976 <= tz < 24000000000 ->
      day_range_ms date_str tz = Raise ValueError)
  /\ (~ (-23999999976 <= tz < 24000000000) ->
      (exists y m d, unpack3 (split dash date_str) = Ok (y, m, d)) ->
      day_range_ms date_str tz = Raise OverflowError)
  /\ ((forall y m d, unpack3 (split dash date_str) <> Ok (y, m, d)) ->
      day_range_ms date_str tz = Raise ValueError).
Proof.
  intros Habs.
  assert (Ho : offset_ok tz = false).
  { unfold offset_ok. apply andb_false_iff.
    rewrite !Z.ltb_ge. lia. }
  rewrite day_range_ms_eq. repeat split.
  - destruct (unpack3 _) as [[[y m] d]|e]; [|discriminate].
    rewrite Ho. destruct (offset_in_delta_range tz); discriminate.
  - intros Hr. apply offset_in_delta_range_spec in Hr.
    destruct (unpack3 _) as [[[y m] d]|e] eqn:E.
    + rewrite Hr, Ho. reflexivity.
    + f_equal. eapply unpack3_raises, E.
  - intros Hr (y & m & d & E). rewrite E.
    destruct (offset_in_delta_range tz) eqn:Hd; [|reflexivity].
    apply offset_in_delta_range_spec in Hd. contradiction.
  - intros Hno. destruct (unpack3 _) as [[[y m] d]|e] eqn:E.
    + now destruct (Hno y m d).
    + f_equal. eapply unpack3_raises, E.
Qed.

(** C10 at the offset 24. *)
Lemma C10_witness :
  (forall r, day_range_ms "2025-11-09" 24 <> Ok r)
  /\ (-23999999976 <= 24 < 24000000000 ->
      day_range_ms "2025-11-09" 24 = Raise ValueError)
  /\ (~ (-23999999976 <= 24 < 24000000000) ->
      (exists y m d, unpack3 (split dash "2025-11-09") = Ok (y, m, d)) ->
      day_range_ms "2025-11-09" 24 = Raise OverflowError)
  /\ ((forall y m d, unpack3 (split dash "2025-11-09") <> Ok (y, m, d)) ->
      day_range_ms "2025-11-09" 24 = Raise ValueError).
Proof.
  apply (C10_offset_of_a_day_or_more_raises "2025-11-09" 24). simpl. lia.
Defined.

(** ** The tool on the claims *)

Lemma length_append (s t : string) :
  String.length (s ++ t) = (String.length s + String.length t)%nat.
Proof. induction s as [|c s IH]; simpl; congruence. Qed.

Lemma length_spaces (n : nat) : String.length (spaces n) = n.
Proof. induction n; simpl; congruence. Qed.

Lemma fmt_ljust_length (w : nat) (s : string) :
  String.length (fmt_ljust w s) = Nat.max w (String.length s).
Proof.
  unfold fmt_ljust. rewrite length_append, length_spaces. lia.
Qed.

Lemma fmt_plus_d_sign (z : Z) :
  fmt_plus_d z = (if 0 <=? z then "+" else "-") ++ str_of_int (Z.abs z).
Proof. destruct z; reflexivity. Qed.

Lemma strip_USAGE :
  strip USAGE
  = "Usage:" ++ nl
    ++ "  python query_orders.py <trader_id> <symbol> <date: YYYY-MM-DD> [tz_offset_hours]"
    ++ nl ++ nl ++ "Examples:" ++ nl
    ++ "  python query_orders.py binance_xxx_deepseek_xxx 0GUSDT 2025-11-09"
    ++ nl
    ++ "  python query_orders.py binance_xxx_deepseek_xxx BTCUSDT 2025-11-09 8".
Proof. vm_compute. reflexivity. Qed.

Section ClaimFacts.

Variable value : Type.
Variable py_str : value -> string.
Variable fmt_g6 : value -> string.
Variable local_time_str : Z -> result string.

Lemma print_rows_lines (rows : list (row value)) (line : string) :
  In (Stdout line) (fst (print_rows py_str fmt_g6 local_time_str rows)) ->
  exists r ts_str,
    In r rows /\ local_time_str (row_time r) = Ok ts_str
    /\ line = row_line py_str fmt_g6 ts_str r.
Proof.
  induction rows as [|r rs IH]; [intros []|].
  cbn [print_rows]. unfold lift.
  destruct (local_time_str (row_time r)) as [ts|e] eqn:E; [|intros []].
  cbn [io_bind emit].
  destruct (print_rows py_str fmt_g6 local_time_str rs) as [t res].
  cbn [fst app]. intros [H|H].
  - injection H as <-. exists r, ts. split; [now left|]. auto.
  - destruct (IH H) as (r' & ts' & Hin & Hrest).
    exists r', ts'. split; [now right | exact Hrest].
Qed.

(** C3, amended.  Every line the row loop prints has the side, the
    position side and the status left-aligned and filled with spaces on
    the right up to 4, 5 and 7 characters; a longer value is kept whole. *)
Theorem C3_fields_are_left_aligned (rows : list (row value)) (line : string) :
  In (Stdout line) (fst (print_rows py_str fmt_g6 local_time_str rows)) ->
  exists ts_str oid sd ps st px qty ro cp otype tm,
    In (oid, sd, ps, st, px, qty, ro, cp, otype, tm) rows
    /\ local_time_str tm = Ok ts_str
    /\ line
       = ts_str ++ " | id=" ++ py_str oid ++ " | "
         ++ (sd ++ spaces (4 - String.length sd)) ++ " "
         ++ (ps ++ spaces (5 - String.length ps)) ++ " "
         ++ (st ++ spaces (7 - String.length st))
         ++ " | px=" ++ fmt_g6 px ++ " qty=" ++ fmt_g6 qty
         ++ " | RO=" ++ py_str ro ++ " CP=" ++ py_str cp ++ " | " ++ otype
    /\ String.length (sd ++ spaces (4 - String.length sd))
       = Nat.max 4 (String.length sd)
    /\ String.length (ps ++ spaces (5 - String.length ps))
       = Nat.max 5 (String.length ps)
    /\ String.length (st ++ spaces (7 - String.length st))
       = Nat.max 7 (String.length st).
Proof.
  intros H. apply print_rows_lines in H.
  destruct H as (r & ts & Hin & Hts & ->).
  destruct r as [[[[[[[[[oid sd] ps] st] px] qty] ro] cp] otype] tm].
  exists ts, oid, sd, ps, st, px, qty, ro, cp, otype, tm.
  split; [exact Hin|]. split; [exact Hts|]. split; [reflexivity|].
  repeat split; apply fmt_ljust_length.
Qed.

(** C5, amended.  A malformed date makes [day_range_ms] raise, and [main]
    ends with that exception and status 1 before it prints or opens the
    store.  The exception is [OverflowError] exactly when the date string
    splits into three integer literals and either the offset is more than
    [timedelta] holds, or the offset is strictly between -24 and 24 and one
    of the three integers is not a C [int]; in every other case it is
    [ValueError]. *)
Theorem C5_malformed_date_ends_the_run
  (argv : list string) (db : store value) (tz : Z) :
  (4 <= List.length argv)%nat -> tz_arg argv = Ok tz ->
  date_ok (nth 3 argv "") = false ->
  exists e,
    day_range_ms (nth 3 argv "") tz = Raise e
    /\ (e = ValueError \/ e = OverflowError)
    /\ (e = OverflowError
        <-> exists y m d,
              unpack3 (split dash (nth 3 argv "")) = Ok (y, m, d)
              /\ (~ (-23999999976 <= tz < 24000000000)
                  \/ (-24 < tz < 24 /\ fits_date y m d = false)))
    /\ main py_str fmt_g6 local_time_str argv db = ([], Raise e)
    /\ exit_status (Raise e) = 1.
Proof.
  intros Hlen Htz Hbad.
  destruct (day_range_ms (nth 3 argv "") tz) as [[lo hi]|e] eqn:E.
  - apply day_range_ms_date_ok in E. destruct E. congruence.
  - exists e. split; [reflexivity|].
    pose proof (day_range_ms_raises _ _ _ E) as He.
    split; [exact He|]. split.
    + rewrite <- day_range_ms_overflow_iff, E. split.
      * intros ->. reflexivity.
      * intros [= ->]. reflexivity.
    + split; [eapply main_bad_range; eauto|].
      destruct He as [-> | ->]; reflexivity.
Qed.

(** C6.  With fewer than three arguments after the script name, [main]
    prints the usage text, exits with status 1 and leaves the store
    alone. *)
Theorem C6_usage_on_too_few_arguments (argv : list string) (db : store value) :
  (List.length argv < 4)%nat ->
  let run := main py_str fmt_g6 local_time_str argv db in
  printed (fst run) = [strip USAGE]
  /\ store_events (fst run) = []
  /\ snd run = Raise (SystemExit 1)
  /\ exit_status (snd run) = 1.
Proof.
  intros H run. subst run. rewrite (main_usage _ py_str fmt_g6 _ _ db H).
  repeat split.
Qed.

(** C7.  When the query matches nothing, [main] prints the summary line
    alone, with the count 0, the symbol, the date and the signed offset,
    and ends with status 0. *)
Theorem C7_no_match_prints_the_summary_only
  (argv : list string) (table : list (order value)) (tz lo hi : Z) :
  (4 <= List.length argv)%nat -> tz_arg argv = Ok tz ->
  day_range_ms (nth 3 argv "") tz = Ok (lo, hi) ->
  run_query table (nth 1 argv "") (nth 2 argv "") lo hi = [] ->
  let run := main py_str fmt_g6 local_time_str argv (Some table) in
  printed (fst run)
  = ["found 0 orders for " ++ nth 2 argv "" ++ " on " ++ nth 3 argv ""
     ++ " (tz=UTC" ++ (if 0 <=? tz then "+" else "-")
     ++ str_of_int (Z.abs tz) ++ ")"]
  /\ snd run = Ok tt
  /\ exit_status (snd run) = 0.
Proof.
  intros Hlen Htz Hr Hq run. subst run.
  rewrite (main_query _ py_str fmt_g6 local_time_str argv table tz lo hi
             Hlen Htz Hr).
  rewrite Hq. cbn [print_rows ret fst snd List.length].
  unfold printed. cbn [flat_map app].
  unfold summary_line. rewrite fmt_plus_d_sign.
  destruct (0 <=? tz); repeat split.
Qed.

(** C8.  The fetched rows are sorted by time, and the lines after the
    summary are the rows' lines in that order: all of them when the run
    ends normally, the first ones up to a time stamp that the platform
    refuses otherwise. *)
Theorem C8_rows_sorted_and_printed_in_order
  (argv : list string) (table : list (order value)) (tz lo hi : Z) :
  (4 <= List.length argv)%nat -> tz_arg argv = Ok tz ->
  day_range_ms (nth 3 argv "") tz = Ok (lo, hi) ->
  let rows := run_query table (nth 1 argv "") (nth 2 argv "") lo hi in
  let run := main py_str fmt_g6 local_time_str argv (Some table) in
  StronglySorted time_le rows
  /\ exists (k : nat) (lines : list string),
       printed (fst run)
       = summary_line (List.length rows) (nth 2 argv "") (nth 3 argv "") tz
         :: lines
       /\ (k <= List.length rows)%nat
       /\ map Some lines
          = map (render py_str fmt_g6 local_time_str) (firstn k rows)
       /\ (snd run = Ok tt -> k = List.length rows).
Proof.
  intros Hlen Htz Hr rows run. split.
  - apply order_by_time_sorted.
  - subst run.
    rewrite (main_query _ py_str fmt_g6 local_time_str argv table tz lo hi
               Hlen Htz Hr).
    fold rows.
    destruct (print_rows_in_order _ py_str fmt_g6 local_time_str rows)
      as (k & Hk & Hmap & Hall).
    exists k, (printed (fst (print_rows py_str fmt_g6 local_time_str rows))).
    cbn [fst snd]. repeat split; auto.
    cbn. unfold printed at 1. rewrite flat_map_app.
    fold (printed (fst (print_rows py_str fmt_g6 local_time_str rows))).
    destruct (snd (print_rows py_str fmt_g6 local_time_str rows));
      cbn; now rewrite app_nil_r.
Qed.

End ClaimFacts.

(** ** Instances *)

(** C2 on a store of one order placed at the first millisecond of
    2025-11-09 UTC. *)
Lemma C2_witness :
  let o := sample_order 1762646400000 in
  ((time o = 1762646400000 \/ time o = 1762732799999) ->
     In (select o)
       (run_query [o] "trader1" "BTCUSDT" 1762646400000 1762732799999))
  /\ ((time o = 1762646400000 - 1 \/ time o = 1762732799999 + 1) ->
        ~ In (select o)
            (run_query [o] "trader1" "BTCUSDT" 1762646400000 1762732799999)).
Proof.
  intros o.
  apply (C2_between_is_inclusive string [o] "trader1" "BTCUSDT"
           "2025-11-09" 0 1762646400000 1762732799999 o).
  - vm_compute. reflexivity.
  - simpl. left. reflexivity.
  - reflexivity.
  - reflexivity.
Defined.

(** C3 as stated fails: the padding goes to the right of the value. *)
Lemma C3_padding_is_on_the_right :
  let r := select (sample_order 5) in
  print_rows id_str id_str sample_clock [r]
  = ([Stdout "5 | id=7 | BUY  LONG  FILLED  | px=101234 qty=0.5 | RO=0 CP=0 | LIMIT"],
     Ok tt)
  /\ claimed_row_line id_str id_str "5" r
     = "5 | id=7 |  BUY  LONG  FILLED | px=101234 qty=0.5 | RO=0 CP=0 | LIMIT"
  /\ row_line id_str id_str "5" r <> claimed_row_line id_str id_str "5" r.
Proof.
  repeat split; try reflexivity. vm_compute. discriminate.
Qed.

(** C3 on the line of the sample order. *)
Lemma C3_witness :
  exists ts_str oid sd ps st px qty ro cp otype tm,
    In (oid, sd, ps, st, px, qty, ro, cp, otype, tm) [select (sample_order 5)]
    /\ sample_clock tm = Ok ts_str
    /\ "5 | id=7 | BUY  LONG  FILLED  | px=101234 qty=0.5 | RO=0 CP=0 | LIMIT"
       = ts_str ++ " | id=" ++ id_str oid ++ " | "
         ++ (sd ++ spaces (4 - String.length sd)) ++ " "
         ++ (ps ++ spaces (5 - String.length ps)) ++ " "
         ++ (st ++ spaces (7 - String.length st))
         ++ " | px=" ++ id_str px ++ " qty=" ++ id_str qty
         ++ " | RO=" ++ id_str ro ++ " CP=" ++ id_str cp ++ " | " ++ otype
    /\ String.length (sd ++ spaces (4 - String.length sd))
       = Nat.max 4 (String.length sd)
    /\ String.length (ps ++ spaces (5 - String.length ps))
       = Nat.max 5 (String.length ps)
    /\ String.length (st ++ spaces (7 - String.length st))
       = Nat.max 7 (String.length st).
Proof.
  apply (C3_fields_are_left_aligned string id_str id_str sample_clock
           [select (sample_order 5)]).
  simpl. left. reflexivity.
Defined.

(** C5 as stated fails: a year that does not fit a C [int], or an offset
    that [timedelta] cannot hold, gives [OverflowError]. *)
Lemma C5_overflow_is_not_a_value_error :
  date_ok "99999999999-01-01" = false
  /\ day_range_ms "99999999999-01-01" 8 = Raise OverflowError
  /\ date_ok "2025-02-30" = false
  /\ day_range_ms "2025-02-30" 24000000000 = Raise OverflowError.
Proof. repeat split; vm_compute; reflexivity. Qed.

(** C5 on the 30th of February. *)
Lemma C5_witness :
  exists e,
    day_range_ms (nth 3 ["query_orders.py"; "trader1"; "BTCUSDT"; "2025-02-30"] "") 8
    = Raise e
    /\ (e = ValueError \/ e = OverflowError)
    /\ (e = OverflowError
        <-> exists y m d,
              unpack3
                (split dash
                   (nth 3 ["query_orders.py"; "trader1"; "BTCUSDT"; "2025-02-30"]
                      ""))
              = Ok (y, m, d)
              /\ (~ (-23999999976 <= 8 < 24000000000)
                  \/ (-24 < 8 < 24 /\ fits_date y m d = false)))
    /\ main id_str id_str sample_clock
         ["query_orders.py"; "trader1"; "BTCUSDT"; "2025-02-30"] None
       = ([], Raise e)
    /\ exit_status (Raise e) = 1.
Proof.
  apply (C5_malformed_date_ends_the_run string id_str id_str sample_clock
           ["query_orders.py"; "trader1"; "BTCUSDT"; "2025-02-30"] None 8).
  - simpl. lia.
  - reflexivity.
  - vm_compute. reflexivity.
Defined.

(** C6 with two arguments after the script name. *)
Lemma C6_witness :
  let run := main id_str id_str sample_clock
               ["query_orders.py"; "trader1"; "BTCUSDT"] None in
  printed (fst run) = [strip USAGE]
  /\ store_events (fst run) = []
  /\ snd run = Raise (SystemExit 1)
  /\ exit_status (snd run) = 1.
Proof.
  apply (C6_usage_on_too_few_arguments string id_str id_str sample_clock
           ["query_orders.py"; "trader1"; "BTCUSDT"] None).
  simpl. lia.
Defined.

(** C7 on an empty table. *)
Lemma C7_witness :
  let run := main id_str id_str sample_clock sample_argv (Some []) in
  printed (fst run)
  = ["found 0 orders for " ++ nth 2 sample_argv "" ++ " on "
     ++ nth 3 sample_argv "" ++ " (tz=UTC" ++ (if 0 <=? 0 then "+" else "-")
     ++ str_of_int (Z.abs 0) ++ ")"]
  /\ snd run = Ok tt
  /\ exit_status (snd run) = 0.
Proof.
  apply (C7_no_match_prints_the_summary_only string id_str id_str sample_clock
           sample_argv [] 0 1762646400000 1762732799999).
  - simpl. lia.
  - reflexivity.
  - vm_compute. reflexivity.
  - reflexivity.
Defined.

(** C8 on two orders stored latest first. *)
Lemma C8_witness :
  let table := [sample_order 1762732799999; sample_order 1762646400000] in
  let rows := run_query table (nth 1 sample_argv "") (nth 2 sample_argv "")
                1762646400000 1762732799999 in
  let run := main id_str id_str sample_clock sample_argv (Some table) in
  StronglySorted time_le rows
  /\ exists (k : nat) (lines : list string),
       printed (fst run)
       = summary_line (List.length rows) (nth 2 sample_argv "")
           (nth 3 sample_argv "") 0 :: lines
       /\ (k <= List.length rows)%nat
       /\ map Some lines
          = map (render id_str id_str sample_clock) (firstn k rows)
       /\ (snd run = Ok tt -> k = List.length rows).
Proof.
  apply (C8_rows_sorted_and_printed_in_order string id_str id_str sample_clock
           sample_argv
           [sample_order 1762732799999; sample_order 1762646400000]
           0 1762646400000 1762732799999).
  - simpl. lia.
  - reflexivity.
  - vm_compute. reflexivity.
Defined.

(** * More of the range calculator *)

(** ** The end of the range, by the sign of the time stamp *)

(** Truncation toward zero stays on the side of zero. *)
Lemma to_int_below_succ (x : Q) (b : Z) :
  0 <= b -> (x < inject_Z (b + 1))%Q -> Float64.to_int x <= b.
Proof.
  intros Hb Hx. unfold Float64.to_int. destruct x as [n d].
  unfold Qlt in Hx. simpl in *. rewrite Z.mul_1_r in Hx.
  destruct (Z_le_gt_dec 0 n).
  - rewrite Z.quot_div_nonneg by lia.
    assert (n / Z.pos d < b + 1) by (apply Z.div_lt_upper_bound; lia). lia.
  - assert (Hq : Z.quot n (Z.pos d) = - ((- n) / Z.pos d)).
    { rewrite <- Z.quot_div_nonneg by lia. rewrite Z.quot_opp_l by lia. lia. }
    assert (0 <= (- n) / Z.pos d) by (apply Z.div_pos; lia). lia.
Qed.

Lemma to_int_above_pred (x : Q) (a : Z) :
  a <= 0 -> (inject_Z (a - 1) < x)%Q -> a <= Float64.to_int x.
Proof.
  intros Ha Hx. unfold Float64.to_int. destruct x as [n d].
  unfold Qlt in Hx. simpl in *. rewrite Z.mul_1_r in Hx.
  destruct (Z_le_gt_dec 0 n).
  - rewrite Z.quot_div_nonneg by lia.
    assert (0 <= n / Z.pos d) by (apply Z.div_pos; lia). lia.
  - assert (Hq : Z.quot n (Z.pos d) = - ((- n) / Z.pos d)).
    { rewrite <- Z.quot_div_nonneg by lia. rewrite Z.quot_opp_l by lia. lia. }
    rewrite Hq.
    assert ((- n) / Z.pos d < - a + 1) by (apply Z.div_lt_upper_bound; lia).
    lia.
Qed.

(** The float product behind [ms_of] is within 1/16 of the whole number of
    milliseconds. *)
Lemma ms_product_near (n : Z) :
  - (1000 * 2 ^ 38) < n < 1000 * 2 ^ 38 ->
  let p := Float64.mul_int (Float64.true_div (1000 * n) US_PER_SECOND) 1000 in
  (inject_Z n - (1 # 16) <= p /\ p <= inject_Z n + (1 # 16))%Q.
Proof.
  intros Hn. unfold Float64.mul_int, Float64.true_div.
  set (x := (inject_Z (1000 * n) / inject_Z US_PER_SECOND)%Q).
  assert (Hx : (x * 1000 == inject_Z n)%Q).
  { subst x. rewrite inject_Z_mult. unfold US_PER_SECOND.
    change (inject_Z 1000000) with (1000000 # 1)%Q.
    change (inject_Z 1000) with (1000 # 1)%Q. field. }
  assert (Hnq : (- (1000 * inject_Z (2 ^ 38)) < inject_Z n
                 /\ inject_Z n < 1000 * inject_Z (2 ^ 38))%Q).
  { change 1000%Q with (inject_Z 1000).
    rewrite <- inject_Z_mult, <- inject_Z_opp, <- !Zlt_Qlt. lia. }
  destruct Hnq as [Hn1 Hn2].
  destruct (Float64Facts.round_error x 38) as [E1 E2]; try lia.
  { change (inject_Z (2 ^ 38)) with (274877906944 # 1)%Q in *. lra. }
  { change (inject_Z (2 ^ 38)) with (274877906944 # 1)%Q in *. lra. }
  change (Float64.pow2 (38 - 53)) with (1 # 32768)%Q in E1, E2.
  set (t1 := Float64.round x) in *.
  change (inject_Z 1000) with (1000 # 1)%Q.
  destruct (Float64Facts.round_error (t1 * (1000 # 1)) 48) as [F1 F2]; try lia.
  { change (inject_Z (2 ^ 48)) with (281474976710656 # 1)%Q.
    change (inject_Z (2 ^ 38)) with (274877906944 # 1)%Q in *. lra. }
  { change (inject_Z (2 ^ 48)) with (281474976710656 # 1)%Q.
    change (inject_Z (2 ^ 38)) with (274877906944 # 1)%Q in *. lra. }
  change (Float64.pow2 (48 - 53)) with (1 # 32)%Q in F1, F2.
  cbv zeta. split; lra.
Qed.

Lemma ms_of_near_signed (t : datetime) (n : Z) :
  td_us (since_epoch t) = 1000 * n ->
  - (1000 * 2 ^ 38) < n < 1000 * 2 ^ 38 ->
  (0 <= n -> n - 1 <= ms_of t <= n) /\ (n <= 0 -> n <= ms_of t <= n + 1).
Proof.
  intros Hu Hn. pose proof (ms_of_near t n Hu Hn) as Hnear.
  pose proof (ms_product_near n Hn) as Hp. cbv zeta in Hp.
  assert (E : ms_of t
              = Float64.to_int
                  (Float64.mul_int
                     (Float64.true_div (1000 * n) US_PER_SECOND) 1000)).
  { unfold ms_of, timestamp, total_seconds. rewrite Hu. reflexivity. }
  rewrite E in *. clear E Hu.
  revert Hnear Hp.
  generalize (Float64.mul_int
                (Float64.true_div (1000 * n) US_PER_SECOND) 1000).
  intros p Hnear [Hp1 Hp2]. split; intros Hs; split; try lia.
  - apply to_int_below_succ; [lia|].
    rewrite inject_Z_plus. change (inject_Z 1) with 1%Q. lra.
  - apply to_int_above_pred; [lia|].
    replace (n - 1) with (n + -1) by lia.
    rewrite inject_Z_plus. change (inject_Z (-1)) with (-1 # 1)%Q. lra.
Qed.

Lemma ms_of_day_end_signed y m d tz :
  valid_date y m d = true -> offset_ok tz = true ->
  let s := epoch_seconds y m d tz in
  (0 <= s -> 1000 * s + 86399998 <= ms_of (day_end y m d tz) <= 1000 * s + 86399999)
  /\ (s <= -86400 ->
      1000 * s + 86399999 <= ms_of (day_end y m d tz) <= 1000 * s + 86400000).
Proof.
  intros Hv Ho s. pose proof (epoch_seconds_bounds y m d tz Hv Ho) as Hb.
  fold s in Hb.
  assert (E : td_us (since_epoch (day_end y m d tz))
              = 1000 * (1000 * s + 86399999)).
  { subst s. unfold since_epoch, day_end, epoch_seconds, mk_tz.
    cbn [year month day hour minute second microsecond tzinfo utcoffset td_us].
    unfold US_PER_HOUR, US_PER_SECOND. lia. }
  destruct (ms_of_near_signed _ _ E) as [H1 H2]; [lia|].
  split; intros Hs; [specialize (H1 ltac:(lia)) | specialize (H2 ltac:(lia))];
    lia.
Qed.

(** ** The ordinal of a day *)

Lemma is_leap_spec y :
  is_leap y = true <-> (y mod 4 = 0 /\ (y mod 100 <> 0 \/ y mod 400 = 0)).
Proof.
  unfold is_leap.
  rewrite andb_true_iff, orb_true_iff, negb_true_iff, !Z.eqb_eq, Z.eqb_neq.
  tauto.
Qed.

Lemma days_before_year_succ y :
  days_before_year (y + 1)
  = days_before_year y + 365 + (if is_leap y then 1 else 0).
Proof.
  unfold days_before_year. cbv zeta.
  replace (y + 1 - 1) with y by lia.
  destruct (is_leap y) eqn:L.
  - apply is_leap_spec in L.
    Z.to_euclidean_division_equations. lia.
  - assert (Hn : ~ (y mod 4 = 0 /\ (y mod 100 <> 0 \/ y mod 400 = 0))).
    { rewrite <- is_leap_spec. congruence. }
    Z.to_euclidean_division_equations. lia.
Qed.

Lemma days_before_year_le y y' :
  y <= y' -> days_before_year y <= days_before_year y'.
Proof.
  unfold days_before_year. cbv zeta. intros H.
  Z.to_euclidean_division_equations. lia.
Qed.

Lemma ymd2ord_in_year y m d :
  valid_date y m d = true ->
  days_before_year y + 1 <= ymd2ord y m d <= days_before_year (y + 1).
Proof.
  intros H. apply valid_date_inv in H. destruct H as (Hy & Hm & Hd).
  rewrite days_before_year_succ.
  unfold ymd2ord, days_before_month, days_in_month in *.
  destruct (month_cases m Hm) as [E|[E|[E|[E|[E|[E|[E|[E|[E|[E|[E|E]]]]]]]]]]];
    subst m; destruct (is_leap y); simpl in *; lia.
Qed.

Lemma ymd2ord_same_year y m d m' d' :
  valid_date y m d = true -> valid_date y m' d' = true ->
  ymd2ord y m d = ymd2ord y m' d' -> m = m' /\ d = d'.
Proof.
  intros H H'. apply valid_date_inv in H, H'.
  destruct H as (Hy & Hm & Hd). destruct H' as (_ & Hm' & Hd').
  unfold ymd2ord, days_before_month, days_in_month in *.
  destruct (month_cases m Hm) as [E|[E|[E|[E|[E|[E|[E|[E|[E|[E|[E|E]]]]]]]]]]];
    subst m;
    destruct (month_cases m' Hm')
      as [E|[E|[E|[E|[E|[E|[E|[E|[E|[E|[E|E]]]]]]]]]]];
    subst m'; destruct (is_leap y); simpl in *; lia.
Qed.

(** Two days of the calendar with the same ordinal are the same day. *)
Lemma ymd2ord_inj y m d y' m' d' :
  valid_date y m d = true -> valid_date y' m' d' = true ->
  ymd2ord y m d = ymd2ord y' m' d' -> y = y' /\ m = m' /\ d = d'.
Proof.
  intros H H' E.
  pose proof (ymd2ord_in_year _ _ _ H) as B.
  pose proof (ymd2ord_in_year _ _ _ H') as B'.
  assert (y = y').
  { destruct (Z.lt_trichotomy y y') as [L|[L|L]]; [|assumption|].
    - pose proof (days_before_year_le (y + 1) y' ltac:(lia)). lia.
    - pose proof (days_before_year_le (y' + 1) y ltac:(lia)). lia. }
  subst y'. split; [reflexivity|]. eapply ymd2ord_same_year; eauto.
Qed.

(** ** What [day_range_ms] returns and raises, for every input *)

Lemma valid_date_fits y m d : valid_date y m d = true -> fits_date y m d = true.
Proof.
  intros H. apply valid_date_inv in H. destruct H as (Hy & Hm & Hd).
  assert (days_in_month y m <= 31).
  { unfold days_in_month.
    destruct (month_cases m Hm) as [E|[E|[E|[E|[E|[E|[E|[E|[E|[E|[E|E]]]]]]]]]]];
      subst m; destruct (is_leap y); simpl; lia. }
  unfold fits_date, fits_int, INT_MIN, INT_MAX, MINYEAR, MAXYEAR in *.
  rewrite !andb_true_iff, !Z.leb_le. lia.
Qed.

Lemma day_range_ms_parts (date_str : string) (tz lo hi : Z) :
  day_range_ms date_str tz = Ok (lo, hi) ->
  exists y m d,
    unpack3 (split dash date_str) = Ok (y, m, d)
    /\ valid_date y m d = true /\ offset_ok tz = true
    /\ lo = ms_of (day_start y m d tz) /\ hi = ms_of (day_end y m d tz).
Proof.
  rewrite day_range_ms_eq.
  destruct (unpack3 _) as [[[y m] d]|]; [|discriminate].
  destruct (offset_in_delta_range tz); simpl; [|discriminate].
  destruct (offset_ok tz) eqn:Ho; simpl; [|discriminate].
  destruct (fits_date y m d); simpl; [|discriminate].
  destruct (valid_date y m d) eqn:Hv; simpl; [|discriminate].
  intros [= <- <-]. exists y, m, d. auto.
Qed.

(** X1.  A returned range is the local day: the start is the epoch
    milliseconds of midnight of the date at the offset, to the millisecond,
    and the end is 86399999 ms after it, give or take one. *)
Theorem X1_range_is_the_local_day (date_str : string) (tz lo hi : Z) :
  day_range_ms date_str tz = Ok (lo, hi) ->
  exists y m d,
    unpack3 (split dash date_str) = Ok (y, m, d)
    /\ lo = 1000 * ((ymd2ord y m d - ymd2ord 1970 1 1) * 86400 - tz * 3600)
    /\ lo + 86399998 <= hi <= lo + 86400000.
Proof.
  intros H. apply day_range_ms_shape in H.
  destruct H as (y & m & d & E & _ & _ & Hlo & Hhi).
  exists y, m, d. auto.
Qed.

Lemma X1_witness :
  exists y m d,
    unpack3 (split dash "2025-11-09") = Ok (y, m, d)
    /\ 1762617600000
       = 1000 * ((ymd2ord y m d - ymd2ord 1970 1 1) * 86400 - 8 * 3600)
    /\ 1762617600000 + 86399998 <= 1762703999999 <= 1762617600000 + 86400000.
Proof.
  apply (X1_range_is_the_local_day "2025-11-09" 8 1762617600000 1762703999999).
  vm_compute. reflexivity.
Defined.

(** X2.  [day_range_ms] returns a range exactly when the date string splits
    into three integer literals that name a day of the years 1 to 9999 and
    the offset is strictly between -24 and 24. *)
Theorem X2_range_exists_iff (date_str : string) (tz : Z) :
  (exists lo hi, day_range_ms date_str tz = Ok (lo, hi))
  <-> date_ok date_str = true /\ -24 < tz < 24.
Proof.
  split.
  - intros (lo & hi & H). apply day_range_ms_date_ok in H.
    destruct H as [Hd Ho]. apply offset_ok_inv in Ho. auto.
  - intros [Hd Ho]. rewrite day_range_ms_eq. unfold date_ok in Hd.
    destruct (unpack3 _) as [[[y m] d]|]; [|discriminate].
    assert (Hok : offset_ok tz = true).
    { unfold offset_ok. rewrite andb_true_iff, !Z.ltb_lt. lia. }
    rewrite (offset_ok_delta_range _ Hok), Hok, (valid_date_fits _ _ _ Hd), Hd.
    simpl. eauto.
Qed.

(** X3.  [day_range_ms] raises [OverflowError] exactly when the date string
    splits into three integer literals and either the offset is more than
    [timedelta] holds, or the offset is accepted and one of the three
    integers is not a C [int]. *)
Theorem X3_overflow_error_iff (date_str : string) (tz : Z) :
  day_range_ms date_str tz = Raise OverflowError
  <-> exists y m d,
        unpack3 (split dash date_str) = Ok (y, m, d)
        /\ (~ (-23999999976 <= tz < 24000000000)
            \/ (-24 < tz < 24 /\ fits_date y m d = false)).
Proof.
  rewrite day_range_ms_eq. split.
  - destruct (unpack3 _) as [[[y m] d]|e] eqn:U.
    + intros H. exists y, m, d. split; [reflexivity|].
      destruct (offset_in_delta_range tz) eqn:Hd; simpl in H.
      * destruct (offset_ok tz) eqn:Ho; simpl in H; [|discriminate].
        apply offset_ok_inv in Ho.
        destruct (fits_date y m d); simpl in H; [|auto].
        destruct (valid_date y m d); discriminate.
      * left. rewrite <- offset_in_delta_range_spec. congruence.
    + intros [= ->]. apply unpack3_raises in U. discriminate.
  - intros (y & m & d & -> & [Hr | [Ho Hf]]).
    + destruct (offset_in_delta_range tz) eqn:Hd; [|reflexivity].
      apply offset_in_delta_range_spec in Hd. contradiction.
    + assert (Hok : offset_ok tz = true).
      { unfold offset_ok. rewrite andb_true_iff, !Z.ltb_lt. lia. }
      rewrite (offset_ok_delta_range _ Hok), Hok, Hf. reflexivity.
Qed.

(** X4.  For one date and two accepted offsets, the start moves by 3600000
    ms per hour of offset, earlier for a larger offset, and the end follows
    within two milliseconds. *)
Theorem X4_offset_moves_the_range (date_str : string) (tz tz' lo hi lo' hi' : Z) :
  day_range_ms date_str tz = Ok (lo, hi) ->
  day_range_ms date_str tz' = Ok (lo', hi') ->
  lo' = lo - 3600000 * (tz' - tz)
  /\ hi - 3600000 * (tz' - tz) - 2 <= hi' <= hi - 3600000 * (tz' - tz) + 2.
Proof.
  intros H H'. apply day_range_ms_shape in H, H'.
  destruct H as (y & m & d & E & _ & _ & -> & Hhi).
  destruct H' as (y' & m' & d' & E' & _ & _ & -> & Hhi').
  rewrite E in E'. injection E' as <- <- <-.
  unfold epoch_seconds in *. lia.
Qed.

Lemma X4_witness :
  1762617600000 = 1762646400000 - 3600000 * (8 - 0)
  /\ 1762732799999 - 3600000 * (8 - 0) - 2 <= 1762703999999
     <= 1762732799999 - 3600000 * (8 - 0) + 2.
Proof.
  apply (X4_offset_moves_the_range "2025-11-09" 0 8
           1762646400000 1762732799999 1762617600000 1762703999999);
    vm_compute; reflexivity.
Defined.

(** X5.  At one offset, a day that comes k days after another starts
    86400000 k ms after it, and the earlier range ends no later than the
    later one starts; from one day to the next at most two milliseconds lie
    between the end and the next start. *)
Theorem X5_later_days_start_later
  (s s' : string) (tz lo hi lo' hi' y m d y' m' d' k : Z) :
  day_range_ms s tz = Ok (lo, hi) ->
  day_range_ms s' tz = Ok (lo', hi') ->
  unpack3 (split dash s) = Ok (y, m, d) ->
  unpack3 (split dash s') = Ok (y', m', d') ->
  ymd2ord y' m' d' = ymd2ord y m d + k -> 1 <= k ->
  lo' = lo + 86400000 * k /\ hi <= lo' /\ (k = 1 -> lo' - 2 <= hi).
Proof.
  intros H H' U U' Hord Hk. apply day_range_ms_shape in H, H'.
  destruct H as (y0 & m0 & d0 & E & _ & _ & -> & Hhi).
  destruct H' as (y1 & m1 & d1 & E' & _ & _ & -> & Hhi').
  rewrite U in E. injection E as <- <- <-.
  rewrite U' in E'. injection E' as <- <- <-.
  unfold epoch_seconds in *. rewrite Hord. lia.
Qed.

Lemma X5_witness :
  1764547200000 = 1764460800000 + 86400000 * 1
  /\ 1764547199999 <= 1764547200000
  /\ (1 = 1 -> 1764547200000 - 2 <= 1764547199999).
Proof.
  apply (X5_later_days_start_later "2025-11-30" "2025-12-01" 0
           1764460800000 1764547199999 1764547200000 1764633599999
           2025 11 30 2025 12 1 1);
    try (vm_compute; reflexivity). lia.
Defined.

(** X6.  A range that starts at or after the epoch never ends past the last
    millisecond of its day; a range of a day that is over before the epoch
    never ends before it. *)
Theorem X6_end_errs_toward_zero (date_str : string) (tz lo hi : Z) :
  day_range_ms date_str tz = Ok (lo, hi) ->
  (0 <= lo -> hi <= lo + 86399999)
  /\ (lo <= -86400000 -> lo + 86399999 <= hi).
Proof.
  intros H. apply day_range_ms_parts in H.
  destruct H as (y & m & d & _ & Hv & Ho & -> & ->).
  rewrite (ms_of_day_start y m d tz Hv Ho).
  destruct (ms_of_day_end_signed y m d tz Hv Ho) as [H1 H2]. cbv zeta in *.
  split; intros Hs; [specialize (H1 ltac:(lia)) | specialize (H2 ltac:(lia))];
    lia.
Qed.

Lemma X6_witness :
  (0 <= 541555200000 -> 541641599998 <= 541555200000 + 86399999)
  /\ (541555200000 <= -86400000 -> 541555200000 + 86399999 <= 541641599998).
Proof.
  apply (X6_end_errs_toward_zero "1987-03-01" 0 541555200000 541641599998).
  vm_compute. reflexivity.
Defined.

(** X7.  At one offset, two date strings give the same start only when
    they name the same day. *)
Theorem X7_same_start_same_day (s s' : string) (tz lo hi hi' : Z) :
  day_range_ms s tz = Ok (lo, hi) ->
  day_range_ms s' tz = Ok (lo, hi') ->
  unpack3 (split dash s) = unpack3 (split dash s').
Proof.
  intros H H'. apply day_range_ms_shape in H, H'.
  destruct H as (y & m & d & E & Hv & _ & Hlo & _).
  destruct H' as (y' & m' & d' & E' & Hv' & _ & Hlo' & _).
  rewrite E, E'. unfold epoch_seconds in *.
  assert (Hord : ymd2ord y m d = ymd2ord y' m' d') by lia.
  destruct (ymd2ord_inj _ _ _ _ _ _ Hv Hv' Hord) as (-> & -> & ->).
  reflexivity.
Qed.

Lemma X7_witness :
  unpack3 (split dash "2025-11-09") = unpack3 (split dash " 2025-11-9").
Proof.
  apply (X7_same_start_same_day "2025-11-09" " 2025-11-9" 8
           1762617600000 1762703999999 1762703999999);
    vm_compute; reflexivity.
Defined.

(** * More of the query and of [main] *)

Lemma store_events_map_Stdout (l : list string) :
  store_events (map Stdout l) = [].
Proof. induction l; simpl; auto. Qed.

Lemma store_events_app (t t' : list event) :
  store_events (t ++ t') = (store_events t ++ store_events t')%list.
Proof. unfold store_events. apply filter_app. Qed.

Lemma printed_app (t t' : list event) :
  printed (t ++ t') = (printed t ++ printed t')%list.
Proof. unfold printed. apply flat_map_app. Qed.

Lemma printed_map_Stdout (l : list string) : printed (map Stdout l) = l.
Proof. induction l; simpl; congruence. Qed.

Section QueryExtras.

Variable value : Type.

(** X8.  The query returns the rows of exactly the stored orders of the
    given trader and symbol whose time lies in the closed range. *)
Theorem X8_query_returns_exactly_the_matches
  (table : list (order value)) (tid sym : string) (lo hi : Z) (r : row value) :
  In r (run_query table tid sym lo hi)
  <-> exists o, In o table /\ trader_id o = tid /\ symbol o = sym
                /\ lo <= time o <= hi /\ select o = r.
Proof.
  rewrite In_run_query. split; intros (o & Hin & H).
  - destruct H as [Hw Hs]. apply where_spec in Hw. exists o. tauto.
  - exists o. split; [assumption|]. rewrite where_spec. tauto.
Qed.

(** X9.  Sorting neither drops nor repeats a row: the result is a
    rearrangement of the rows of the matching orders, one row per matching
    order. *)
Theorem X9_query_keeps_each_match_once
  (table : list (order value)) (tid sym : string) (lo hi : Z) :
  Permutation (run_query table tid sym lo hi)
    (map select (filter (where_ tid sym lo hi) table))
  /\ List.length (run_query table tid sym lo hi)
     = List.length (filter (where_ tid sym lo hi) table).
Proof.
  unfold run_query. split.
  - apply order_by_time_perm.
  - rewrite (Permutation_length (order_by_time_perm _ _)).
    apply length_map.
Qed.

End QueryExtras.

Section MainExtras.

Variable value : Type.
Variable py_str : value -> string.
Variable fmt_g6 : value -> string.
Variable local_time_str : Z -> result string.

Lemma print_rows_no_store_events (rows : list (row value)) :
  store_events (fst (print_rows py_str fmt_g6 local_time_str rows)) = [].
Proof.
  rewrite print_rows_prints_only. apply store_events_map_Stdout.
Qed.

Lemma print_rows_line_count (rows : list (row value)) :
  snd (print_rows py_str fmt_g6 local_time_str rows) = Ok tt ->
  List.length (printed (fst (print_rows py_str fmt_g6 local_time_str rows)))
  = List.length rows.
Proof.
  intros H.
  destruct (print_rows_in_order _ py_str fmt_g6 local_time_str rows)
    as (k & _ & Hmap & Hall).
  specialize (Hall H). subst k. rewrite firstn_all in Hmap.
  apply (f_equal (@List.length _)) in Hmap. now rewrite !length_map in Hmap.
Qed.

(** X10.  An offset argument that is not an integer literal ends the run
    with [ValueError] and status 1 before anything is printed and before
    the store is opened, whatever the date argument is. *)
Theorem X10_bad_offset_argument_ends_the_run
  (argv : list string) (db : store value) :
  (4 < List.length argv)%nat -> parse_int (nth 4 argv "") = None ->
  main py_str fmt_g6 local_time_str argv db = ([], Raise ValueError)
  /\ exit_status (snd (main py_str fmt_g6 local_time_str argv db)) = 1.
Proof.
  intros Hlen Hp.
  assert (Ht : tz_arg argv = Raise ValueError).
  { unfold tz_arg, py_int. apply Nat.ltb_lt in Hlen. now rewrite Hlen, Hp. }
  rewrite (main_bad_offset_arg _ py_str fmt_g6 local_time_str argv db
             ValueError ltac:(lia) Ht).
  split; reflexivity.
Qed.

(** X11.  A run depends on the script name and the next four arguments
    only, and a missing fourth one counts as 8. *)
Theorem X11_four_arguments_default_8 (argv : list string) (db : store value) :
  (4 <= List.length argv)%nat ->
  main py_str fmt_g6 local_time_str argv db
  = main py_str fmt_g6 local_time_str (firstn 5 (argv ++ ["8"])) db.
Proof.
  intros H.
  destruct argv as [|a0 [|a1 [|a2 [|a3 [|a4 more]]]]]; simpl in H; try lia;
    reflexivity.
Qed.

(** X12.  On a store that opens and answers the query, what [main] does
    to the store in a run is nothing, or one connection and one query with
    the trader and the symbol of the command line and the range of
    [day_range_ms], followed by at most one close; it touches the store
    only after the offset and the date were accepted. *)
Theorem X12_one_connection_one_query
  (argv : list string) (table : list (order value)) :
  let ev := store_events
              (fst (main py_str fmt_g6 local_time_str argv (Some table))) in
  ev = []
  \/ exists tz lo hi,
       (4 <= List.length argv)%nat
       /\ tz_arg argv = Ok tz
       /\ day_range_ms (nth 3 argv "") tz = Ok (lo, hi)
       /\ (ev = [Connect; Execute (nth 1 argv "") (nth 2 argv "") lo hi]
           \/ ev = [Connect; Execute (nth 1 argv "") (nth 2 argv "") lo hi;
                    Close]).
Proof.
  intros ev. subst ev.
  destruct (Nat.ltb_spec (List.length argv) 4) as [Hlt|Hge].
  { left. now rewrite (main_usage _ py_str fmt_g6 _ _ (Some table) Hlt). }
  destruct (tz_arg argv) as [tz|e] eqn:Ht.
  2:{ left.
      now rewrite (main_bad_offset_arg _ py_str fmt_g6 _ _ (Some table) e
                     Hge Ht). }
  destruct (day_range_ms (nth 3 argv "") tz) as [[lo hi]|e] eqn:Hr.
  2:{ left.
      now rewrite (main_bad_range _ py_str fmt_g6 _ _ (Some table) tz e
                     Hge Ht Hr). }
  right. exists tz, lo, hi. repeat split; auto.
  rewrite (main_query _ py_str fmt_g6 local_time_str argv table tz lo hi
             Hge Ht Hr).
  cbv zeta. cbn [fst]. rewrite !store_events_app, print_rows_no_store_events.
  destruct (snd (print_rows _ _ _ _)); cbn; auto.
Qed.

(** X13.  A run that ends normally has accepted its arguments, opened the
    store, run the one query, then only printed, and closed the connection
    as its last step. *)
Theorem X13_normal_run_closes_last (argv : list string) (db : store value) :
  snd (main py_str fmt_g6 local_time_str argv db) = Ok tt ->
  exists table tz lo hi lines,
    db = Some table
    /\ (4 <= List.length argv)%nat
    /\ tz_arg argv = Ok tz
    /\ day_range_ms (nth 3 argv "") tz = Ok (lo, hi)
    /\ fst (main py_str fmt_g6 local_time_str argv db)
       = (Connect :: Execute (nth 1 argv "") (nth 2 argv "") lo hi
            :: map Stdout lines ++ [Close])%list.
Proof.
  destruct (Nat.ltb_spec (List.length argv) 4) as [Hlt|Hge].
  { rewrite (main_usage _ py_str fmt_g6 _ _ db Hlt). discriminate. }
  destruct (tz_arg argv) as [tz|e] eqn:Ht.
  2:{ rewrite (main_bad_offset_arg _ py_str fmt_g6 _ _ db e Hge Ht).
      discriminate. }
  destruct (day_range_ms (nth 3 argv "") tz) as [[lo hi]|e] eqn:Hr.
  2:{ rewrite (main_bad_range _ py_str fmt_g6 _ _ db tz e Hge Ht Hr).
      discriminate. }
  destruct db as [table|].
  - rewrite (main_query _ py_str fmt_g6 local_time_str argv table tz lo hi
               Hge Ht Hr).
    cbv zeta. cbn [fst snd]. intros Hok.
    set (rows := run_query table (nth 1 argv "") (nth 2 argv "") lo hi) in *.
    exists table, tz, lo, hi,
      (summary_line (List.length rows) (nth 2 argv "") (nth 3 argv "") tz
         :: printed (fst (print_rows py_str fmt_g6 local_time_str rows))).
    repeat split; auto.
    rewrite Hok. cbn [map app]. now rewrite <- print_rows_prints_only.
  - unfold main. apply Nat.ltb_ge in Hge. rewrite Hge, Ht. cbn.
    rewrite Hr. cbn. discriminate.
Qed.

(** X14.  The count in the summary line is the number of stored orders of
    the trader and symbol in the range, and a run that ends normally prints
    that many lines after the summary. *)
Theorem X14_summary_counts_the_matches
  (argv : list string) (table : list (order value)) (tz lo hi : Z) :
  (4 <= List.length argv)%nat -> tz_arg argv = Ok tz ->
  day_range_ms (nth 3 argv "") tz = Ok (lo, hi) ->
  let run := main py_str fmt_g6 local_time_str argv (Some table) in
  let n := List.length
             (filter (where_ (nth 1 argv "") (nth 2 argv "") lo hi) table) in
  hd_error (printed (fst run))
  = Some (summary_line n (nth 2 argv "") (nth 3 argv "") tz)
  /\ (snd run = Ok tt -> List.length (printed (fst run)) = S n).
Proof.
  intros Hlen Ht Hr run n. subst run.
  rewrite (main_query _ py_str fmt_g6 local_time_str argv table tz lo hi
             Hlen Ht Hr).
  cbv zeta. cbn [fst snd].
  assert (Hn : List.length
                 (run_query table (nth 1 argv "") (nth 2 argv "") lo hi) = n).
  { unfold run_query.
    rewrite (Permutation_length (order_by_time_perm _ _)). apply length_map. }
  rewrite Hn. split; [reflexivity|].
  intros Hok. rewrite !printed_app. cbn [printed flat_map app List.length].
  rewrite length_app, (print_rows_line_count _ Hok), Hok, Hn. cbn. lia.
Qed.

(** X15.  The store is left untouched exactly in the runs whose arguments
    are rejected: too few of them, an offset that is not an integer
    literal, or a date and an offset for which [day_range_ms] raises.
    Such a run ends with status 1 and prints nothing, except the usage text
    when the arguments are too few. *)
Theorem X15_store_untouched_iff_arguments_rejected
  (argv : list string) (db : store value) :
  let run := main py_str fmt_g6 local_time_str argv db in
  (store_events (fst run) = []
   <-> ~ (exists tz lo hi,
            (4 <= List.length argv)%nat /\ tz_arg argv = Ok tz
            /\ day_range_ms (nth 3 argv "") tz = Ok (lo, hi)))
  /\ (store_events (fst run) = [] ->
      exit_status (snd run) = 1
      /\ (printed (fst run) = []
          \/ ((List.length argv < 4)%nat
              /\ printed (fst run) = [strip USAGE]))).
Proof.
  intros run. subst run.
  destruct (Nat.ltb_spec (List.length argv) 4) as [Hlt|Hge].
  { rewrite (main_usage _ py_str fmt_g6 _ _ db Hlt). cbn. split.
    - split; [|reflexivity]. intros _ (tz & lo & hi & H & _). lia.
    - intros _. split; [reflexivity|]. right. split; [exact Hlt|reflexivity]. }
  destruct (tz_arg argv) as [tz|e] eqn:Ht.
  2:{ rewrite (main_bad_offset_arg _ py_str fmt_g6 _ _ db e Hge Ht). cbn.
      split.
      - split; [|reflexivity]. intros _ (tz & lo & hi & _ & H & _).
        discriminate.
      - intros _. split; [|now left]. unfold tz_arg in Ht.
        destruct (4 <? List.length argv)%nat; [|discriminate].
        destruct (py_int_cases (nth 4 argv "")) as [[z Hz]|Hz];
          rewrite Hz in Ht; [discriminate|]. now injection Ht as <-. }
  destruct (day_range_ms (nth 3 argv "") tz) as [[lo hi]|e] eqn:Hr.
  2:{ rewrite (main_bad_range _ py_str fmt_g6 _ _ db tz e Hge Ht Hr). cbn.
      split.
      - split; [|reflexivity]. intros _ (tz' & lo & hi & _ & [= <-] & H).
        rewrite Hr in H. discriminate.
      - intros _. split; [|now left].
        destruct (day_range_ms_raises _ _ _ Hr) as [-> | ->]; reflexivity. }
  assert (Hev : store_events
                  (fst (main py_str fmt_g6 local_time_str argv db)) <> []).
  { destruct db as [table|].
    - rewrite (main_query _ py_str fmt_g6 local_time_str argv table tz lo hi
                 Hge Ht Hr).
      cbv zeta. cbn. discriminate.
    - unfold main. apply Nat.ltb_ge in Hge. rewrite Hge, Ht. cbn.
      rewrite Hr. cbn. discriminate. }
  split.
  - split; [intros H; now destruct (Hev H)|].
    intros H. exfalso. apply H. exists tz, lo, hi. auto.
  - intros H. now destruct (Hev H).
Qed.

End MainExtras.

(** X10 with the offset argument [eight]. *)
Lemma X10_witness :
  main id_str id_str sample_clock
    ["query_orders.py"; "trader1"; "BTCUSDT"; "2025-11-09"; "eight"] None
  = ([], Raise ValueError)
  /\ exit_status
       (snd (main id_str id_str sample_clock
               ["query_orders.py"; "trader1"; "BTCUSDT"; "2025-11-09"; "eight"]
               None)) = 1.
Proof.
  apply (X10_bad_offset_argument_ends_the_run string id_str id_str
           sample_clock
           ["query_orders.py"; "trader1"; "BTCUSDT"; "2025-11-09"; "eight"]
           None).
  - simpl. lia.
  - reflexivity.
Defined.

(** X11 without the offset argument. *)
Lemma X11_witness :
  main id_str id_str sample_clock
    ["query_orders.py"; "trader1"; "BTCUSDT"; "2025-11-09"]
    (Some [sample_order 1762646400000])
  = main id_str id_str sample_clock
      (firstn 5 (["query_orders.py"; "trader1"; "BTCUSDT"; "2025-11-09"]
                 ++ ["8"]))
      (Some [sample_order 1762646400000]).
Proof.
  apply (X11_four_arguments_default_8 string id_str id_str sample_clock
           ["query_orders.py"; "trader1"; "BTCUSDT"; "2025-11-09"]
           (Some [sample_order 1762646400000])).
  simpl. lia.
Defined.

(** X14 on a table of three orders, two of them in the day. *)
Lemma X14_witness :
  let table := [sample_order 1762732799999; sample_order 1762646399999;
                sample_order 1762646400000] in
  let run := main id_str id_str sample_clock sample_argv (Some table) in
  let n := List.length
             (filter (where_ (nth 1 sample_argv "") (nth 2 sample_argv "")
                        1762646400000 1762732799999) table) in
  hd_error (printed (fst run))
  = Some (summary_line n (nth 2 sample_argv "") (nth 3 sample_argv "") 0)
  /\ (snd run = Ok tt -> List.length (printed (fst run)) = S n).
Proof.
  apply (X14_summary_counts_the_matches string id_str id_str sample_clock
           sample_argv
           [sample_order 1762732799999; sample_order 1762646399999;
            sample_order 1762646400000]
           0 1762646400000 1762732799999).
  - simpl. lia.
  - reflexivity.
  - vm_compute. reflexivity.
Defined.

(** X13 on a store of one order. *)
Lemma X13_witness :
  exists table tz lo hi lines,
    Some [sample_order 1762646400000] = Some table
    /\ (4 <= List.length sample_argv)%nat
    /\ tz_arg sample_argv = Ok tz
    /\ day_range_ms (nth 3 sample_argv "") tz = Ok (lo, hi)
    /\ fst (main id_str id_str sample_clock sample_argv
              (Some [sample_order 1762646400000]))
       = (Connect :: Execute (nth 1 sample_argv "") (nth 2 sample_argv "") lo hi
            :: map Stdout lines ++ [Close])%list.
Proof.
  apply (X13_normal_run_closes_last string id_str id_str sample_clock
           sample_argv (Some [sample_order 1762646400000])).
  vm_compute. reflexivity.
Defined.

(** X15 with a date that is not on the calendar. *)
Lemma X15_witness :
  exit_status
    (snd (main id_str id_str sample_clock
            ["query_orders.py"; "trader1"; "BTCUSDT"; "2025-02-30"] None)) = 1
  /\ (printed
        (fst (main id_str id_str sample_clock
                ["query_orders.py"; "trader1"; "BTCUSDT"; "2025-02-30"] None))
      = []
      \/ ((List.length ["query_orders.py"; "trader1"; "BTCUSDT"; "2025-02-30"]
           < 4)%nat
          /\ printed
               (fst (main id_str id_str sample_clock
                       ["query_orders.py"; "trader1"; "BTCUSDT"; "2025-02-30"]
                       None))
             = [strip USAGE])).
Proof.
  apply (proj2 (X15_store_untouched_iff_arguments_rejected string id_str
                  id_str sample_clock
                  ["query_orders.py"; "trader1"; "BTCUSDT"; "2025-02-30"]
                  None)).
  vm_compute. reflexivity.
Defined.

(** ** The row loop when a time stamp is refused *)

Section RowLoopExtras.

Variable value : Type.
Variable py_str : value -> string.
Variable fmt_g6 : value -> string.
Variable local_time_str : Z -> result string.

(** X16.  A row whose time stamp cannot be formatted is never printed,
    nor is any row after it: the loop does not end normally, and what it
    printed are the lines of the first rows before that row, in order. *)
Theorem X16_row_failure_stops_the_listing
  (before after : list (row value)) (r : row value) (e : exn) :
  local_time_str (row_time r) = Raise e ->
  let out := print_rows py_str fmt_g6 local_time_str (before ++ r :: after) in
  snd out <> Ok tt
  /\ exists k : nat,
       (k <= List.length before)%nat
       /\ map Some (printed (fst out))
          = map (render py_str fmt_g6 local_time_str) (firstn k before).
Proof.
  intros Hr out. subst out.
  destruct (print_rows_in_order _ py_str fmt_g6 local_time_str
              (before ++ r :: after)) as (k & Hk & Hmap & Hall).
  assert (Hkb : (k <= List.length before)%nat).
  { destruct (Nat.le_gt_cases k (List.length before)) as [H|H]; [exact H|].
    exfalso.
    assert (Hin : In None
                    (map (render py_str fmt_g6 local_time_str)
                       (firstn k (before ++ r :: after)))).
    { apply in_map_iff. exists r. split.
      - unfold render. now rewrite Hr.
      - rewrite firstn_app. apply in_or_app. right.
        destruct (k - List.length before)%nat eqn:D; [lia|]. now left. }
    rewrite <- Hmap in Hin. apply in_map_iff in Hin.
    destruct Hin as (x & Hx & _). discriminate. }
  split.
  - intros Hok. specialize (Hall Hok). rewrite length_app in Hall.
    cbn in Hall. lia.
  - exists k. split; [exact Hkb|]. rewrite Hmap. f_equal.
    rewrite firstn_app.
    replace (k - List.length before)%nat with 0%nat by lia.
    cbn. apply app_nil_r.
Qed.

End RowLoopExtras.

(** X16 with a clock that refuses the time stamps before the epoch. *)
Lemma X16_witness :
  let clock := fun ts : Z => if ts <? 0 then Raise OSError
                             else Ok (str_of_int ts) in
  let out := print_rows id_str id_str clock
               ([select (sample_order 5)]
                ++ select (sample_order (-1)) :: [select (sample_order 7)]) in
  snd out <> Ok tt
  /\ exists k : nat,
       (k <= List.length [select (sample_order 5)])%nat
       /\ map Some (printed (fst out))
          = map (render id_str id_str clock)
              (firstn k [select (sample_order 5)]).
Proof.
  intros clock.
  apply (X16_row_failure_stops_the_listing string id_str id_str clock
           [select (sample_order 5)] [select (sample_order 7)]
           (select (sample_order (-1))) OSError).
  reflexivity.
Defined.
